(** * mesh_to_sdf: the surface point cloud and its signed-distance queries

  A shallow embedding of [mesh_to_sdf/surface_point_cloud.py].

  - numpy arrays are lists (2-d and 3-d arrays are nested lists);
  - Python exceptions are the [Err] results of an error monad;
  - array scalars are kept abstract behind the [Float] interface, so the
    statements hold for any scalar arithmetic (IEEE included) and can be
    run on integers; the camera angles, which need [asin], [sqrt] and
    [pi], are studied over the real numbers, and on binary64 floats
    where rounding decides;
  - the collaborators the module imports (sklearn's KDTree, the Scan
    class, trimesh's sampling, the helpers of mesh_to_sdf.utils) are the
    fields of the [Collaborators] interface;
  - [get_random_surface_points] (a random draw) and [show] (the viewer)
    take no part in the signed distances and are left out. *)

From Stdlib Require Import ZArith List Bool Lia Arith QArith Qround Reals Lra.
From Stdlib Require Floats.
Import ListNotations.

Set Implicit Arguments.
Local Open Scope Z_scope.

(* ================================================================== *)
(** ** Exceptions and the error monad *)

(** The exceptions the module can raise.  [InvalidInput] is the error kind
  the documentation names; no code path below constructs it. *)
Inductive exn : Set :=
| ZeroDivisionError
| ValueError
| TypeError
| IndexError
| BadMeshException
| InvalidInput.

Inductive result (A : Type) : Type :=
| Ok (a : A)
| Err (e : exn).
Arguments Ok {A} a.
Arguments Err {A} e.

Definition bind {A B} (m : result A) (k : A -> result B) : result B :=
  match m with
  | Ok a => k a
  | Err e => Err e
  end.

Declare Scope result_scope.
Delimit Scope result_scope with result.
Notation "x <- m ;; k" := (bind m (fun x => k))
  (at level 61, m at next level, right associativity) : result_scope.
Notation "' p <- m ;; k" := (bind m (fun x => match x with p => k end))
  (at level 61, p pattern, m at next level, right associativity) : result_scope.
Local Open Scope result_scope.

Definition is_ok {A} (m : result A) : bool :=
  match m with Ok _ => true | Err _ => false end.

(** Monadic map: the first failing element decides the exception. *)
Fixpoint mapM {A B} (f : A -> result B) (l : list A) : result (list B) :=
  match l with
  | [] => Ok []
  | a :: l' => b <- f a ;; bs <- mapM f l' ;; Ok (b :: bs)
  end.

(** [for x in l: state = body(x, state)], stopping at the first exception. *)
Fixpoint for_each {A S} (l : list A) (body : A -> S -> result S) (s : S)
  : result S :=
  match l with
  | [] => Ok s
  | a :: l' => s' <- body a s ;; for_each l' body s'
  end.

(** Python's [range(n)] for an int [n]. *)
Definition range (n : Z) : list Z := map Z.of_nat (seq 0 (Z.to_nat n)).

(* ================================================================== *)
(** ** Python numbers

  [batch_size] is either an int or a float (its default, [1e6], is a
  float).  A float is represented by the rational it denotes. *)

Inductive pynum : Set :=
| PyInt (z : Z)
| PyFloat (q : Q).

Definition py_value (x : pynum) : Q :=
  match x with PyInt z => inject_Z z | PyFloat q => q end.

(** [a <= b] and [a < b]: Python compares ints and floats exactly. *)
Definition py_le (a b : pynum) : bool := Qle_bool (py_value a) (py_value b).
Definition py_lt (a b : pynum) : bool := negb (py_le b a).

(** [a * b]: an int only when both operands are. *)
Definition py_mul (a b : pynum) : pynum :=
  match a, b with
  | PyInt x, PyInt y => PyInt (x * y)
  | _, _ => PyFloat (py_value a * py_value b)
  end.

(** [min(a, b)] returns [a] unless [b < a]. *)
Definition py_min (a b : pynum) : pynum := if py_lt b a then b else a.

(** [a / b]: true division, always a float.  The quotient is taken
    exactly: neither its rounding nor its overflow to infinity (for a
    divisor very close to zero) is modelled. *)
Definition py_truediv (a b : pynum) : result Q :=
  if Qeq_bool (py_value b) 0 then Err ZeroDivisionError
  else Ok (py_value a / py_value b)%Q.

(** [int(math.ceil(x))] of a finite [x]. *)
Definition math_ceil (x : Q) : Z := Qceiling x.

(** An index must be an int: numpy refuses a float slice bound. *)
Definition py_index (x : pynum) : result Z :=
  match x with
  | PyInt z => Ok z
  | PyFloat _ => Err TypeError
  end.

(* ================================================================== *)
(** ** Scalars *)

(** The arithmetic the array code uses. *)
Class Float (F : Type) : Type := {
  f_of_Z : Z -> F;              (* a Python int used as an array scalar *)
  f_add : F -> F -> F;
  f_sub : F -> F -> F;
  f_mul : F -> F -> F;
  f_div : F -> F -> F;
  f_ltb : F -> F -> bool;
  astype_float32 : F -> F       (* [.astype(np.float32)] on one element *)
}.

(** The functions of Python's [math] module the camera angles use. *)
Class Math (F : Type) : Type := {
  math_pi : F;
  math_sqrt : F -> F;
  math_asin : F -> result F;    (* ValueError outside of [-1, 1] *)
  f_mod : F -> F -> F           (* [x % y] *)
}.

Record vec3 (F : Type) : Type := mk3 { vx : F; vy : F; vz : F }.
Arguments mk3 {F} vx vy vz.

Section Vectors.
Context {F : Type} `{Float F}.

Definition neg_one : F := f_of_Z (-1).

Definition vsub (a b : vec3 F) : vec3 F :=
  mk3 (f_sub (vx a) (vx b)) (f_sub (vy a) (vy b)) (f_sub (vz a) (vz b)).

(** One entry of [np.einsum('ijk,ijk->ij', a, b)]. *)
Definition dot (a b : vec3 F) : F :=
  f_add (f_add (f_mul (vx a) (vx b)) (f_mul (vy a) (vy b)))
        (f_mul (vz a) (vz b)).
End Vectors.

(* ================================================================== *)
(** ** numpy operations on lists *)

Section Numpy.
Context {A : Type}.

(** A slice bound [i] of an array of length [n], as Python normalises it. *)
Definition slice_bound (n i : Z) : nat :=
  Z.to_nat (if i <? 0 then Z.max 0 (i + n) else Z.min i n).

(** [a[start:end]]. *)
Definition np_slice (a : list A) (start end_ : pynum) : result (list A) :=
  s <- py_index start ;;
  e <- py_index end_ ;;
  let n := Z.of_nat (length a) in
  let s' := slice_bound n s in
  let e' := slice_bound n e in
  Ok (firstn (e' - s') (skipn s' a)).

(** [a[start:end] = v]: [v] has the length of the slice, or length 1 and
    is broadcast; anything else is a ValueError. *)
Definition np_slice_assign (a : list A) (start end_ : pynum) (v : list A)
  : result (list A) :=
  s <- py_index start ;;
  e <- py_index end_ ;;
  let n := Z.of_nat (length a) in
  let s' := slice_bound n s in
  let e' := slice_bound n e in
  let len := length (firstn (e' - s') (skipn s' a)) in
  if (length v =? len)%nat then
    Ok (firstn s' a ++ v ++ skipn (s' + len) a)
  else
    match v with
    | [x] => Ok (firstn s' a ++ repeat x len ++ skipn (s' + len) a)
    | _ => Err ValueError
    end.

(** [a[indices]] for a 2-d integer index array; IndexError out of range. *)
Definition np_take (a : list A) (indices : list (list nat))
  : result (list (list A)) :=
  mapM (mapM (fun i =>
    match nth_error a i with
    | Some x => Ok x
    | None => Err IndexError
    end)) indices.

(** [a[:, 0]]. *)
Definition np_column0 (a : list (list A)) : result (list A) :=
  mapM (fun row =>
    match row with
    | x :: _ => Ok x
    | [] => Err IndexError
    end) a.

(** [np.concatenate(arrays, axis=0)]: needs at least one array. *)
Definition np_concatenate (arrays : list (list A)) : result (list A) :=
  match arrays with
  | [] => Err ValueError
  | _ => Ok (concat arrays)
  end.

(** [l] cut into [m] consecutive chunks of [n] elements. *)
Fixpoint chunks (n m : nat) (l : list A) : list (list A) :=
  match m with
  | O => []
  | S m' => firstn n l :: chunks n m' (skipn n l)
  end.

(** [a.reshape((r, r, r))], row-major. *)
Definition np_reshape3 (a : list A) (r : Z) : result (list (list (list A))) :=
  if r <? 0 then Err ValueError
  else if negb (Z.of_nat (length a) =? r * r * r) then Err ValueError
  else
    let n := Z.to_nat r in
    Ok (map (chunks n n) (chunks (n * n) n a)).

(** The shape of a (rectangular) 3-d array. *)
Definition np_shape3 (v : list (list (list A))) : nat * nat * nat :=
  (length v, length (hd [] v), length (hd [] (hd [] v))).

Definition pad_row (c : A) (row : list A) : list A := c :: row ++ [c].

Definition pad_plane (c : A) (w : nat) (p : list (list A)) : list (list A) :=
  repeat c (w + 2) :: map (pad_row c) p ++ [repeat c (w + 2)].

(** [np.pad(v, 1, mode='constant', constant_values=c)] on a 3-d array. *)
Definition np_pad1 (c : A) (v : list (list (list A))) : list (list (list A)) :=
  let '(_, h, w) := np_shape3 v in
  let face := repeat (repeat c (w + 2)) (h + 2) in
  face :: map (pad_plane c w) v ++ [face].

(** [v[i, j, k]]. *)
Definition get3 (v : list (list (list A))) (i j k : nat) : option A :=
  match nth_error v i with
  | Some p =>
      match nth_error p j with
      | Some row => nth_error row k
      | None => None
      end
  | None => None
  end.

(** [v] has shape [(a, b, c)]. *)
Definition has_shape3 (v : list (list (list A))) (a b c : nat) : Prop :=
  length v = a /\
  Forall (fun p => length p = b /\ Forall (fun row => length row = c) p) v.
End Numpy.

Section NumpyFloat.
Context {F : Type} `{Float F}.

(** [np.zeros(n)]. *)
Definition np_zeros (n : nat) : list F := repeat (f_of_Z 0) n.

(** [a[index] *= c] where [index] is [None] (a view of the whole array)
    or a boolean mask, which must have the length of [a]. *)
Definition np_imul_at (a : list F) (index : option (list bool)) (c : F)
  : result (list F) :=
  match index with
  | None => Ok (map (fun x => f_mul x c) a)
  | Some mask =>
      if (length mask =? length a)%nat then
        Ok (map (fun xb : F * bool => if snd xb then f_mul (fst xb) c else fst xb)
                (combine a mask))
      else Err IndexError
  end.

(** [np.logical_or(a, b)] on two arrays of one length. *)
Definition np_logical_or (a b : list bool) : list bool :=
  map (fun xy : bool * bool => fst xy || snd xy) (combine a b).

(** [q[:, np.newaxis, :] - p] for [q] of shape (n,3) and [p] of shape
    (m,k,3): row by row when [n = m]; a single row on either side is
    broadcast; other shapes are a ValueError. *)
Definition np_sub_broadcast (q : list (vec3 F)) (p : list (list (vec3 F)))
  : result (list (list (vec3 F))) :=
  if (length q =? length p)%nat then
    Ok (map (fun '(qi, row) => map (fun pj => vsub qi pj) row) (combine q p))
  else
    match q, p with
    | [q0], _ => Ok (map (map (fun pj => vsub q0 pj)) p)
    | _, [row] => Ok (map (fun qi => map (fun pj => vsub qi pj) row) q)
    | _, _ => Err ValueError
    end.

(** [np.einsum('ijk,ijk->ij', a, b) < 0], for [a] and [b] of one shape. *)
Definition einsum_lt0 (a b : list (list (vec3 F))) : list (list bool) :=
  map (fun '(ra, rb) =>
         map (fun '(x, y) => f_ltb (dot x y) (f_of_Z 0)) (combine ra rb))
      (combine a b).

(** [np.sum(row)] of a boolean row. *)
Definition count_true (row : list bool) : nat := length (filter (fun b : bool => b) row).
End NumpyFloat.

(* ================================================================== *)
(** ** Collaborators *)

(** Modelled from the spec: the Scan class of mesh_to_sdf/scan.py, which
  is not among the sources.  One virtual-camera capture holds the
  captured surface points, their normals, and a visibility predicate
  from a 3-d point to a boolean; [scan.is_visible(points)] applies the
  predicate to every row. *)
Record Scan (F : Type) : Type := {
  scan_points : list (vec3 F);
  scan_normals : list (vec3 F);
  scan_visible : vec3 F -> bool
}.

Definition is_visible {F} (scan : Scan F) (points : list (vec3 F)) : list bool :=
  map (scan_visible scan) points.

(** What the module imports: sklearn's [KDTree] (constructor and [query],
  which returns the distance array and the index array), the [Scan]
  constructor, trimesh's [mesh.sample(count, return_index=True)] and
  [mesh.face_normals], and the two helpers of mesh_to_sdf.utils. *)
Class Collaborators (F : Type) : Type := {
  Mesh : Type;
  KDTree : Type;
  KDTree_new : list (vec3 F) -> result KDTree;
  KDTree_query : KDTree -> list (vec3 F) -> nat ->
                 result (list (list F) * list (list nat));
  Scan_new : Mesh -> F -> F -> F -> Z -> bool -> Scan F;
  mesh_sample : Mesh -> Z -> list (vec3 F * nat);
  mesh_face_normals : Mesh -> list (vec3 F);
  get_raster_points : Z -> list (vec3 F);
  check_voxels : list (list (list F)) -> bool
}.

(* ================================================================== *)
(** ** class SurfacePointCloud *)

Section SurfacePointCloud.
Context {F : Type} {FL : Float F} {E : Collaborators F}.

Record SurfacePointCloud : Type := {
    mesh : Mesh;
    points : list (vec3 F);
    normals : option (list (vec3 F));
    scans : option (list (Scan F));
    kd_tree : KDTree
}.

(** [SurfacePointCloud.__init__] *)
Definition SurfacePointCloud_init (mesh : Mesh) (points : list (vec3 F))
    (normals : option (list (vec3 F))) (scans : option (list (Scan F)))
  : result SurfacePointCloud :=
  tree <- KDTree_new points ;;
  Ok {| mesh := mesh; points := points; normals := normals;
        scans := scans; kd_tree := tree |}.

(** [is_outside]: iterating over [None] is a TypeError; with no scan at
    all the loop leaves [result] at [None]. *)
Definition is_outside (self : SurfacePointCloud) (pts : list (vec3 F))
  : result (option (list bool)) :=
  match scans self with
  | None => Err TypeError
  | Some ss =>
      Ok (fold_left
            (fun result scan =>
               match result with
               | None => Some (is_visible scan pts)
               | Some r => Some (np_logical_or r (is_visible scan pts))
               end)
            ss None)
  end.

(** [get_sdf] *)
Definition get_sdf (self : SurfacePointCloud) (query_points : list (vec3 F))
    (use_depth_buffer : bool) (sample_count : nat) : result (list F) :=
  if use_depth_buffer then
    '(distances, _) <- KDTree_query (kd_tree self) query_points 1%nat ;;
    let distances :=
      map (fun d => f_mul d neg_one)
          (concat (map (map astype_float32) distances)) in
    outside <- is_outside self query_points ;;
    np_imul_at distances outside neg_one
  else
    '(distances, indices) <-
       KDTree_query (kd_tree self) query_points sample_count ;;
    let distances := map (map astype_float32) distances in
    closest_points <- np_take (points self) indices ;;
    direction_to_surface <- np_sub_broadcast query_points closest_points ;;
    normals_at <- match normals self with
                  | None => Err TypeError
                  | Some ns => np_take ns indices
                  end ;;
    let inside := einsum_lt0 direction_to_surface normals_at in
    (* np.sum(inside, axis=1) > sample_count * 0.5 *)
    let inside :=
      map (fun row => (sample_count <? 2 * count_true row)%nat) inside in
    distances <- np_column0 distances ;;
    np_imul_at distances (Some inside) neg_one.

(** [get_sdf_in_batches] *)
Definition get_sdf_in_batches (self : SurfacePointCloud)
    (query_points : list (vec3 F)) (use_depth_buffer : bool)
    (sample_count : nat) (batch_size : pynum) : result (list F) :=
  let n := PyInt (Z.of_nat (length query_points)) in
  if py_le n batch_size then
    get_sdf self query_points use_depth_buffer sample_count
  else
    let result := np_zeros (length query_points) in
    batches <- py_truediv n batch_size ;;
    for_each (range (math_ceil batches))
      (fun i result =>
         let start := py_mul (PyInt i) batch_size in
         let end_ :=
           py_min (PyInt (Z.of_nat (length result)))
                  (py_mul (PyInt (i + 1)) batch_size) in
         batch <- np_slice query_points start end_ ;;
         sdf <- get_sdf self batch use_depth_buffer sample_count ;;
         np_slice_assign result start end_ sdf)
      result.

(** The default of [batch_size], the float literal [1e6]. *)
Definition default_batch_size : pynum := PyFloat (inject_Z 1000000).

(** [get_voxels]; the call of [get_sdf_in_batches] leaves [batch_size]
    at its default. *)
Definition get_voxels (self : SurfacePointCloud) (voxel_resolution : Z)
    (use_depth_buffer : bool) (sample_count : nat) (pad check_result : bool)
  : result (list (list (list F))) :=
  sdf <- get_sdf_in_batches self (get_raster_points voxel_resolution)
           use_depth_buffer sample_count default_batch_size ;;
  voxels <- np_reshape3 sdf voxel_resolution ;;
  if check_result && negb (check_voxels voxels) then Err BadMeshException
  else if pad then Ok (np_pad1 (f_of_Z 1) voxels)
  else Ok voxels.

(** [sample_from_mesh] *)
Definition sample_from_mesh (mesh : Mesh) (sample_point_count : Z)
    (calculate_normals : bool) : result SurfacePointCloud :=
  let sampled := mesh_sample mesh sample_point_count in
  if calculate_normals then
    normals <- mapM (fun i =>
                 match nth_error (mesh_face_normals mesh) i with
                 | Some n => Ok n
                 | None => Err IndexError
                 end) (map snd sampled) ;;
    SurfacePointCloud_init mesh (map fst sampled) (Some normals) None
  else
    SurfacePointCloud_init mesh (map fst sampled) None None.
End SurfacePointCloud.

Arguments SurfacePointCloud F {E}.

(* ================================================================== *)
(** ** Module-level functions *)

Section CameraAngles.
Context {F : Type} {FL : Float F} {M : Math F}.

(** [get_equidistant_camera_angles], with the generator run to its end:
    the pairs [(phi, theta)] in the order they are yielded, or the first
    exception an iteration raises. *)
Definition get_equidistant_camera_angles (count : Z) : result (list (F * F)) :=
  let increment :=
    f_mul math_pi (f_sub (f_of_Z 3) (math_sqrt (f_of_Z 5))) in
  mapM (fun i =>
          (* 2 * i / (count - 1): int by int *)
          ratio <- (if count - 1 =? 0 then Err ZeroDivisionError
                    else Ok (f_div (f_of_Z (2 * i)) (f_of_Z (count - 1)))) ;;
          theta <- math_asin (f_add (f_of_Z (-1)) ratio) ;;
          let phi :=
            f_mod (f_mul (f_of_Z (i + 1)) increment)
                  (f_mul (f_of_Z 2) math_pi) in
          Ok (phi, theta))
       (range count).

Context {E : Collaborators F}.

(** [create_from_scans].  The Scan constructor has no effect on the
    generator, so the angles are computed first. *)
Definition create_from_scans (mesh : Mesh) (bounding_radius : F)
    (scan_count scan_resolution : Z) (calculate_normals : bool)
  : result (SurfacePointCloud F) :=
  angles <- get_equidistant_camera_angles scan_count ;;
  let scans :=
    map (fun a : F * F =>
           Scan_new mesh (fst a) (snd a) bounding_radius scan_resolution
                    calculate_normals) angles in
  points <- np_concatenate (map (@scan_points F) scans) ;;
  normals <- (if calculate_normals
              then ns <- np_concatenate (map (@scan_normals F) scans) ;;
                   Ok (Some ns)
              else Ok None) ;;
  SurfacePointCloud_init mesh points normals (Some scans).
End CameraAngles.

(* ================================================================== *)
(** ** Two scalar types *)

(** Integer-valued scalars: every definition above runs on them. *)
#[export] Instance Z_Float : Float Z := {|
  f_of_Z := fun z => z;
  f_add := Z.add;
  f_sub := Z.sub;
  f_mul := Z.mul;
  f_div := Z.div;
  f_ltb := Z.ltb;
  astype_float32 := fun z => z
|}.

(** Python's [x % y] on real numbers, [y <> 0]. *)
Definition Rmod (x y : R) : R := (x - y * IZR (Int_part (x / y)))%R.

(** Real-valued scalars: floating-point arithmetic without rounding. *)
#[export] Instance R_Float : Float R := {|
  f_of_Z := IZR;
  f_add := Rplus;
  f_sub := Rminus;
  f_mul := Rmult;
  f_div := Rdiv;
  f_ltb := fun x y => if Rlt_dec x y then true else false;
  astype_float32 := fun x => x
|}.

#[export] Instance R_Math : Math R := {|
  math_pi := PI;
  math_sqrt := sqrt;
  math_asin := fun x =>
    if Rle_dec (-1) x then
      if Rle_dec x 1 then Ok (asin x) else Err ValueError
    else Err ValueError;
  f_mod := Rmod
|}.

(* ================================================================== *)
(** ** A test double for the collaborators

  A brute-force nearest-neighbour index (squared Euclidean distances,
  so that it runs on integers), scans that capture the whole sample set,
  and a raster of integer grid points.  Like sklearn's KDTree it refuses
  an empty point set, an empty query and [k] beyond the number of
  points with a ValueError. *)
Module TestDouble.
Section Double.
Context {F : Type} {FL : Float F}.

Definition sqdist (a b : vec3 F) : F := dot (vsub a b) (vsub a b).

Fixpoint insert (x : F * nat) (l : list (F * nat)) : list (F * nat) :=
  match l with
  | [] => [x]
  | y :: l' => if f_ltb (fst y) (fst x) then y :: insert x l' else x :: l
  end.

Definition nearest (pts : list (vec3 F)) (k : nat) (q : vec3 F)
  : list (F * nat) :=
  firstn k (fold_right insert []
              (combine (map (sqdist q) pts) (seq 0 (length pts)))).

Definition build (pts : list (vec3 F)) : result (list (vec3 F)) :=
  match pts with
  | [] => Err ValueError
  | _ => Ok pts
  end.

Definition query (pts qs : list (vec3 F)) (k : nat)
  : result (list (list F) * list (list nat)) :=
  match qs with
  | [] => Err ValueError
  | _ =>
      if (length pts <? k)%nat then Err ValueError
      else Ok (map (fun q => map fst (nearest pts k q)) qs,
               map (fun q => map snd (nearest pts k q)) qs)
  end.

(** A mesh is a list of surface samples with their normals; a scan
    captures all of them and sees the points beyond the plane
    [x = bounding_radius]. *)
Definition scan (m : list (vec3 F * vec3 F)) (rotation_x rotation_y : F)
    (bounding_radius : F) (resolution : Z) (calculate_normals : bool)
  : Scan F :=
  {| scan_points := map fst m;
     scan_normals := map snd m;
     scan_visible := fun p => f_ltb bounding_radius (vx p) |}.

Definition raster (r : Z) : list (vec3 F) :=
  flat_map (fun x =>
    flat_map (fun y =>
      map (fun z => mk3 (f_of_Z x) (f_of_Z y) (f_of_Z z)) (range r))
      (range r)) (range r).

(** The quality heuristic of the double rejects a volume with a voxel
    below [-1]. *)
Definition check (v : list (list (list F))) : bool :=
  forallb (forallb (forallb (fun d => negb (f_ltb d (f_of_Z (-1)))))) v.

Definition env : Collaborators F := {|
  Mesh := list (vec3 F * vec3 F);
  KDTree := list (vec3 F);
  KDTree_new := build;
  KDTree_query := query;
  Scan_new := scan;
  mesh_sample := fun m count =>
    combine (map fst (firstn (Z.to_nat count) m)) (seq 0 (Z.to_nat count));
  mesh_face_normals := fun m => map snd m;
  get_raster_points := raster;
  check_voxels := check
|}.
End Double.

(** Six samples of the axis-aligned octahedron of radius 2, with outward
  normals. *)
Definition octahedron : list (vec3 Z * vec3 Z) :=
  [ (mk3 2 0 0, mk3 1 0 0); (mk3 (-2) 0 0, mk3 (-1) 0 0);
    (mk3 0 2 0, mk3 0 1 0); (mk3 0 (-2) 0, mk3 0 (-1) 0);
    (mk3 0 0 2, mk3 0 0 1); (mk3 0 0 (-2), mk3 0 0 (-1)) ].
End TestDouble.

(* ================================================================== *)
(** ** The vocabulary of the statements *)

Section Vocabulary.
Context {F : Type} {FL : Float F}.

(** Neighbour [j] votes "inside" for the query point [q]: the vector from
    the neighbour to [q] has a negative dot product with its normal. *)
Definition votes_inside (pts ns : list (vec3 F)) (q : vec3 F) (j : nat) : bool :=
  match nth_error pts j, nth_error ns j with
  | Some p, Some n => f_ltb (dot (vsub q p) n) (f_of_Z 0)
  | _, _ => false
  end.

(** How many of the neighbours listed in [row] vote "inside". *)
Definition inside_votes (pts ns : list (vec3 F)) (q : vec3 F) (row : list nat)
  : nat :=
  length (filter (votes_inside pts ns q) row).

(** [q] is visible from at least one of the scan cameras. *)
Definition visible_from_any (ss : list (Scan F)) (q : vec3 F) : bool :=
  existsb (fun s => scan_visible s q) ss.

(** Negation as the code writes it. *)
Definition negated (d : F) : F := f_mul d neg_one.
End Vocabulary.

(** The two camera angles of view [i] out of [C], over the reals. *)
Definition elevation (C i : Z) : R :=
  asin (-1 + 2 * IZR i / (IZR C - 1))%R.

Definition azimuth (i : Z) : R :=
  Rmod (IZR (i + 1) * PI * (3 - sqrt 5))%R (2 * PI)%R.

(* ================================================================== *)
(** ** Test data *)

Module TestData.
(** The octahedron sampled directly ([scans] is [None]). *)
Definition sampled_cloud : SurfacePointCloud Z (E := TestDouble.env) :=
  @Build_SurfacePointCloud Z TestDouble.env
    TestDouble.octahedron
    (map fst TestDouble.octahedron)
    (Some (map snd TestDouble.octahedron))
    None
    (map fst TestDouble.octahedron).

Definition two_scans : list (Scan Z) :=
  [ TestDouble.scan TestDouble.octahedron 0 0 1 400 true;
    TestDouble.scan TestDouble.octahedron 1 0 3 400 true ].

(** The octahedron captured by two scans. *)
Definition scanned_cloud : SurfacePointCloud Z (E := TestDouble.env) :=
  @Build_SurfacePointCloud Z TestDouble.env
    TestDouble.octahedron
    (concat (map (@scan_points Z) two_scans))
    (Some (concat (map (@scan_normals Z) two_scans)))
    (Some two_scans)
    (concat (map (@scan_points Z) two_scans)).

Definition queries : list (vec3 Z) := [mk3 0 0 0; mk3 5 0 0; mk3 1 1 0].

(** One real-valued surface sample, for the camera-angle functions. *)
Definition real_mesh : list (vec3 R * vec3 R) :=
  [ (mk3 1 0 0, mk3 1 0 0) ]%R.
End TestData.

(* ================================================================== *)
(** ** The remaining method and further vocabulary *)

Section RandomSurfacePoints.
Context {F : Type} {FL : Float F} {E : Collaborators F}.

(** [np.random.choice(n, count)]: the draw is an oracle. *)
Variable random_choice : Z -> Z -> result (list nat).

(** [get_random_surface_points]; [self.points[indices, :]] is an
    IndexError out of range. *)
Definition get_random_surface_points (self : SurfacePointCloud F)
    (count : Z) (use_scans : bool) : result (list (vec3 F)) :=
  if use_scans then
    indices <- random_choice (Z.of_nat (length (points self))) count ;;
    mapM (fun i =>
            match nth_error (points self) i with
            | Some p => Ok p
            | None => Err IndexError
            end) indices
  else
    Ok (map fst (mesh_sample (mesh self) count)).
End RandomSurfacePoints.

Section BatchVocabulary.
Context {F : Type} {FL : Float F} {E : Collaborators F}.

(** The index answers the [k]-nearest-neighbour query row by row: the
    answer to a query in two non-empty parts is the answer to the first
    part followed by the answer to the second (the exception of the first
    failing part otherwise), and an answer has one row of distances and
    one row of indices per query point, which satisfy [row_ok]. *)
Definition answers_rowwise (tree : KDTree) (k : nat)
    (row_ok : list F -> list nat -> Prop) : Prop :=
  (forall q1 q2, q1 <> [] -> q2 <> [] ->
     KDTree_query tree (q1 ++ q2) k =
     (a <- KDTree_query tree q1 k ;;
      b <- KDTree_query tree q2 k ;;
      Ok (fst a ++ fst b, snd a ++ snd b))) /\
  (forall q d i, KDTree_query tree q k = Ok (d, i) ->
     length d = length q /\ Forall2 row_ok d i).

(** The value the normal vote gives one query point, from its row of
    distances and its row of neighbours. *)
Definition normal_vote_value (pts ns : list (vec3 F)) (k : nat)
    (q : vec3 F) (drow : list F) (irow : list nat) : F :=
  let d0 := astype_float32 (hd (f_of_Z 0) drow) in
  if (k <? 2 * inside_votes pts ns q irow)%nat then negated d0 else d0.

(** The value the visibility scans give one query point, as the code
    computes it: negated once, and a second time where the point is
    outside (everywhere when the scan list is empty). *)
Definition depth_buffer_value (ss : list (Scan F)) (q : vec3 F)
    (drow : list F) : F :=
  let d := negated (astype_float32 (hd (f_of_Z 0) drow)) in
  match ss with
  | [] => negated d
  | _ => if visible_from_any ss q then negated d else d
  end.
End BatchVocabulary.

Module MoreTestData.
(** The octahedron with an empty list of scans. *)
Definition unscanned_cloud : SurfacePointCloud Z (E := TestDouble.env) :=
  @Build_SurfacePointCloud Z TestDouble.env
    TestDouble.octahedron
    (map fst TestDouble.octahedron)
    (Some (map snd TestDouble.octahedron))
    (Some [])
    (map fst TestDouble.octahedron).

(** The octahedron sampled without normals. *)
Definition bare_cloud : SurfacePointCloud Z (E := TestDouble.env) :=
  @Build_SurfacePointCloud Z TestDouble.env
    TestDouble.octahedron
    (map fst TestDouble.octahedron)
    None
    None
    (map fst TestDouble.octahedron).

(** A deterministic stand-in for the random draw. *)
Definition draw (n count : Z) : result (list nat) :=
  Ok (map (fun i => (4 * i) mod Z.to_nat n)%nat (seq 0 (Z.to_nat count))).
End MoreTestData.

(* ================================================================== *)
(** ** Binary64 scalars

    Python floats as they are: IEEE 754 binary64 with round to nearest
    even, on Rocq's primitive floats.  The arc sine of the C library is
    the one operation left as a parameter. *)
Module Binary64.
Import SpecFloat.






End Binary64.

(* ================================================================== *)
(** ** Generic lemmas *)

Unset Implicit Arguments.

Section MonadLemmas.
Context {A B : Type}.

Lemma mapM_Forall2 {f : A -> result B} {l : list A} {l' : list B} :
  mapM f l = Ok l' <-> Forall2 (fun a b => f a = Ok b) l l'.
Proof.
  revert l'; induction l as [|a l IH]; intros l'; simpl.
  - split; intros Hl.
    + inversion Hl; constructor.
    + inversion Hl; reflexivity.
  - destruct (f a) as [b|e] eqn:Hfa; simpl.
    + destruct (mapM f l) as [bs|e] eqn:Hm; simpl.
      * split; intros Hl.
        -- inversion Hl; subst. constructor; [assumption | now apply IH].
        -- inversion Hl as [|? b' ? bs' Hb Hbs]; subst.
           apply IH in Hbs. congruence.
      * split; intros Hl; [discriminate|].
        inversion Hl as [|? b' ? bs' Hb Hbs]; subst.
        apply IH in Hbs. discriminate.
    + split; intros Hl; [discriminate|].
      inversion Hl; subst; congruence.
Qed.

Lemma mapM_total {f : A -> result B} {l : list A} :
  Forall (fun a => exists b, f a = Ok b) l -> exists l', mapM f l = Ok l'.
Proof.
  induction 1 as [|a l [b Hb] _ [bs Hbs]]; simpl.
  - now exists [].
  - exists (b :: bs). now rewrite Hb, Hbs.
Qed.

Lemma mapM_app (f : A -> result B) (l1 l2 : list A) :
  mapM f (l1 ++ l2) =
  (x <- mapM f l1 ;; y <- mapM f l2 ;; Ok (x ++ y)).
Proof.
  induction l1 as [|a l1 IH]; simpl.
  - destruct (mapM f l2); reflexivity.
  - destruct (f a); simpl; [|reflexivity].
    rewrite IH. destruct (mapM f l1); simpl; [|reflexivity].
    destruct (mapM f l2); reflexivity.
Qed.

Lemma Forall2_nth_error_l {P : A -> B -> Prop} {l l' i a} :
  Forall2 P l l' -> nth_error l i = Some a ->
  exists b, nth_error l' i = Some b /\ P a b.
Proof.
  intros HF; revert i; induction HF as [|x y l l' Hxy _ IH]; intros i Hi.
  - destruct i; discriminate.
  - destruct i as [|i]; simpl in *.
    + inversion Hi; subst. eauto.
    + eauto.
Qed.

Lemma nth_error_combine (l : list A) (l' : list B) i :
  nth_error (combine l l') i =
  match nth_error l i, nth_error l' i with
  | Some a, Some b => Some (a, b)
  | _, _ => None
  end.
Proof.
  revert l' i; induction l as [|a l IH]; intros [|b l'] [|i]; simpl;
    try reflexivity.
  - destruct (nth_error l i); reflexivity.
  - apply IH.
Qed.
End MonadLemmas.

(* ================================================================== *)
(** ** Strategy (A): the normal vote *)

Section NormalVote.
Context {F : Type} {FL : Float F} {E : Collaborators F}.

Lemma np_take_total {A} (a : list A) {idx : list (list nat)} :
  Forall (Forall (fun j => (j < length a)%nat)) idx ->
  exists r, np_take a idx = Ok r.
Proof.
  intros HF. unfold np_take. apply mapM_total.
  eapply Forall_impl; [|exact HF]. intros row Hrow. apply mapM_total.
  eapply Forall_impl; [|exact Hrow]. intros j Hj. simpl in Hj.
  destruct (nth_error a j) as [x|] eqn:Hx; [eauto|].
  apply nth_error_None in Hx. lia.
Qed.

Lemma np_take_row {A} {a : list A} {idx r i irow} :
  np_take a idx = Ok r -> nth_error idx i = Some irow ->
  exists row, nth_error r i = Some row /\
              Forall2 (fun j x => nth_error a j = Some x) irow row.
Proof.
  unfold np_take. intros Hr Hi. apply mapM_Forall2 in Hr.
  destruct (Forall2_nth_error_l Hr Hi) as [row [Hrow Hm]].
  exists row. split; [assumption|].
  apply mapM_Forall2 in Hm.
  eapply Forall2_impl; [|exact Hm]. intros j x Hjx. simpl in Hjx.
  destruct (nth_error a j); congruence.
Qed.

Lemma row_votes {pts ns : list (vec3 F)} (q : vec3 F) {irow prow nrow} :
  Forall2 (fun j p => nth_error pts j = Some p) irow prow ->
  Forall2 (fun j n => nth_error ns j = Some n) irow nrow ->
  count_true
    (map (fun '(x, y) => f_ltb (dot x y) (f_of_Z 0))
         (combine (map (fun p => vsub q p) prow) nrow))
  = inside_votes pts ns q irow.
Proof.
  intros Hp; revert nrow.
  induction Hp as [|j p irow prow Hj _ IH]; intros nrow Hn.
  - reflexivity.
  - inversion Hn as [|? n ? nrow' Hjn Hn']; subst.
    unfold inside_votes, count_true in *. simpl.
    unfold votes_inside at 1. rewrite Hj, Hjn.
    specialize (IH _ Hn').
    destruct (f_ltb (dot (vsub q p) n) (f_of_Z 0)); simpl; rewrite IH; reflexivity.
Qed.

Lemma np_column0_total {a : list (list F)} :
  Forall (fun row => row <> []) a -> exists c, np_column0 a = Ok c.
Proof.
  intros HF. unfold np_column0. apply mapM_total.
  eapply Forall_impl; [|exact HF]. intros [|x row] Hne; [congruence|eauto].
Qed.

Lemma np_column0_row {a : list (list F)} {c i row} :
  np_column0 a = Ok c -> nth_error a i = Some row ->
  exists d0, hd_error row = Some d0 /\ nth_error c i = Some d0.
Proof.
  unfold np_column0. intros Hc Hi. apply mapM_Forall2 in Hc.
  destruct (Forall2_nth_error_l Hc Hi) as [d0 [Hd0 Hrow]].
  exists d0. destruct row; [discriminate|]. inversion Hrow; subst. auto.
Qed.

(** C1.  With [use_depth_buffer=False], whenever the index answers the
    [k]-nearest-neighbour query with one row per query point, non-empty
    rows and indices into the points and their normals, [get_sdf] returns
    one value per query point: the distance of rank 0 (as float32),
    negated exactly when strictly more than half of [k] neighbours vote
    "inside", a neighbour voting "inside" iff the dot product of (query
    point minus neighbour) with the neighbour's normal is negative. *)
Theorem get_sdf_normal_vote (self : SurfacePointCloud F)
    (q : list (vec3 F)) (k : nat) ns dists idxs :
  normals self = Some ns ->
  KDTree_query (kd_tree self) q k = Ok (dists, idxs) ->
  length dists = length q ->
  length idxs = length q ->
  Forall (fun row => row <> []) dists ->
  Forall (Forall (fun j => (j < length (points self))%nat)) idxs ->
  Forall (Forall (fun j => (j < length ns)%nat)) idxs ->
  exists sdf,
    get_sdf self q false k = Ok sdf /\
    length sdf = length q /\
    forall i qi drow irow,
      nth_error q i = Some qi ->
      nth_error dists i = Some drow ->
      nth_error idxs i = Some irow ->
      exists d0,
        hd_error drow = Some d0 /\
        nth_error sdf i =
          Some (if (k <? 2 * inside_votes (points self) ns qi irow)%nat
                then negated (astype_float32 d0)
                else astype_float32 d0).
Proof.
  intros Hns Hq Hld Hli Hne Hip Hin.
  unfold get_sdf. rewrite Hq. simpl. rewrite Hns.
  destruct (np_take_total (points self) Hip) as [cp Hcp].
  destruct (np_take_total ns Hin) as [cn Hcn].
  rewrite Hcp. simpl.
  assert (Hlcp : length cp = length idxs).
  { unfold np_take in Hcp. apply mapM_Forall2 in Hcp.
    symmetry. eapply Forall2_length; eassumption. }
  unfold np_sub_broadcast.
  replace (length q =? length cp)%nat with true
    by (symmetry; apply Nat.eqb_eq; lia).
  simpl. rewrite Hcn. simpl.
  assert (Hne' : Forall (fun row => row <> []) (map (map astype_float32) dists)).
  { apply Forall_map. eapply Forall_impl; [|exact Hne].
    intros [|x row] Hr; simpl; congruence. }
  destruct (np_column0_total Hne') as [c Hc]. rewrite Hc. simpl.
  assert (Hlc : length c = length q).
  { unfold np_column0 in Hc. apply mapM_Forall2 in Hc.
    apply Forall2_length in Hc. rewrite length_map in Hc. lia. }
  assert (Hlcn : length cn = length idxs).
  { unfold np_take in Hcn. apply mapM_Forall2 in Hcn.
    symmetry. eapply Forall2_length; eassumption. }
  unfold np_imul_at, einsum_lt0.
  rewrite !length_map, !length_combine, !length_map, !length_combine.
  replace (Nat.min (Nat.min (length q) (length cp)) (length cn) =? length c)%nat
    with true by (symmetry; apply Nat.eqb_eq; lia).
  eexists. split; [reflexivity|]. split.
  - rewrite length_map, length_combine, !length_map, !length_combine,
      !length_map, !length_combine. lia.
  - intros i qi drow irow Hqi Hdi Hii.
    destruct (np_take_row Hcp Hii) as [prow [Hprow HPp]].
    destruct (np_take_row Hcn Hii) as [nrow [Hnrow HPn]].
    assert (Hdi' : nth_error (map (map astype_float32) dists) i
                   = Some (map astype_float32 drow))
      by (rewrite nth_error_map, Hdi; reflexivity).
    destruct (np_column0_row Hc Hdi') as [d0' [Hd0' Hci]].
    destruct drow as [|d0 drow]; [discriminate|].
    simpl in Hd0'. inversion Hd0'; subst d0'.
    exists d0. split; [reflexivity|].
    rewrite nth_error_map, nth_error_combine, Hci.
    rewrite nth_error_map, nth_error_map, nth_error_combine.
    rewrite nth_error_map, nth_error_combine, Hqi, Hprow, Hnrow.
    simpl. rewrite (row_votes qi HPp HPn). reflexivity.
Qed.
End NormalVote.

(* ================================================================== *)
(** ** Strategy (B): the visibility scans *)

Section DepthBuffer.
Context {F : Type} {FL : Float F} {E : Collaborators F}.

Lemma np_logical_or_visible (g : vec3 F -> bool) (s : Scan F) (l : list (vec3 F)) :
  np_logical_or (map g l) (is_visible s l)
  = map (fun x => g x || scan_visible s x) l.
Proof.
  unfold np_logical_or, is_visible.
  induction l as [|x l IH]; simpl; [reflexivity|].
  now rewrite IH.
Qed.

Lemma is_outside_loop (ss : list (Scan F)) (pts : list (vec3 F)) :
  forall g : vec3 F -> bool,
    fold_left
      (fun result scan =>
         match result with
         | None => Some (is_visible scan pts)
         | Some r => Some (np_logical_or r (is_visible scan pts))
         end)
      ss (Some (map g pts))
    = Some (map (fun x => g x || visible_from_any ss x) pts).
Proof.
  induction ss as [|s ss IH]; intros g; simpl.
  - f_equal. apply map_ext. intros x. now rewrite orb_false_r.
  - rewrite np_logical_or_visible, IH.
    f_equal. apply map_ext. intros x. now rewrite orb_assoc.
Qed.

(** With at least one scan, [is_outside] is the OR of the visibility
    predicates, point by point. *)
Lemma is_outside_any (self : SurfacePointCloud F) s ss pts :
  scans self = Some (s :: ss) ->
  is_outside self pts = Ok (Some (map (visible_from_any (s :: ss)) pts)).
Proof.
  intros Hs. unfold is_outside. rewrite Hs. simpl.
  change (is_visible s pts) with (map (scan_visible s) pts).
  now rewrite is_outside_loop.
Qed.

Lemma sample_from_mesh_scans (m : Mesh) (count : Z) (calc : bool)
    (pc : SurfacePointCloud F) :
  sample_from_mesh m count calc = Ok pc -> scans pc = None.
Proof.
  unfold sample_from_mesh, SurfacePointCloud_init.
  destruct calc.
  - destruct (mapM _ _); simpl; [|discriminate].
    destruct (KDTree_new _); simpl; [|discriminate].
    intros Hpc; inversion Hpc; reflexivity.
  - destruct (KDTree_new _); simpl; [|discriminate].
    intros Hpc; inversion Hpc; reflexivity.
Qed.

Lemma concat_singletons {A} (l : list (list A)) :
  Forall (fun row => length row = 1%nat) l ->
  length (concat l) = length l /\
  forall i d, nth_error l i = Some [d] -> nth_error (concat l) i = Some d.
Proof.
  induction 1 as [|row l Hrow _ [IHl IHn]]; simpl.
  - split; [reflexivity|]. intros [|i] d Hd; discriminate.
  - destruct row as [|x [|y row]]; try discriminate. simpl.
    split; [now rewrite IHl|].
    intros [|i] d Hd; simpl in *.
    + now inversion Hd.
    + now apply IHn.
Qed.

(** C2.  With [use_depth_buffer=True] on a point cloud with a non-empty
    scan list, whenever the index answers the 1-nearest-neighbour query
    with one distance per query point, [get_sdf] returns per query point
    that distance (as float32) itself exactly when the point is visible
    from at least one scan camera, and the negated distance otherwise.
    The double negation of the code relies on [x * -1 * -1 = x]. *)
Theorem get_sdf_depth_buffer (self : SurfacePointCloud F)
    (q : list (vec3 F)) (k : nat) s ss dists idxs :
  (forall x : F, f_mul (f_mul x neg_one) neg_one = x) ->
  scans self = Some (s :: ss) ->
  KDTree_query (kd_tree self) q 1 = Ok (dists, idxs) ->
  length dists = length q ->
  Forall (fun row => length row = 1%nat) dists ->
  exists sdf,
    get_sdf self q true k = Ok sdf /\
    length sdf = length q /\
    forall i qi d,
      nth_error q i = Some qi ->
      nth_error dists i = Some [d] ->
      nth_error sdf i =
        Some (if visible_from_any (s :: ss) qi
              then astype_float32 d
              else negated (astype_float32 d)).
Proof.
  intros Hinv Hs Hq Hld Hrows.
  unfold get_sdf. rewrite Hq. simpl.
  rewrite (is_outside_any self s ss q Hs). simpl.
  assert (Hrows' : Forall (fun row => length row = 1%nat)
                          (map (map astype_float32) dists)).
  { apply Forall_map. eapply Forall_impl; [|exact Hrows].
    intros row Hr. simpl. now rewrite length_map. }
  destruct (concat_singletons _ Hrows') as [Hlen Hnth].
  rewrite length_map in Hlen.
  rewrite !length_map, Hlen.
  replace (length q =? length dists)%nat with true
    by (symmetry; apply Nat.eqb_eq; lia).
  eexists. split; [reflexivity|]. split.
  - rewrite length_map, length_combine, !length_map, Hlen. lia.
  - intros i qi d Hqi Hdi.
    rewrite nth_error_map, nth_error_combine, !nth_error_map.
    rewrite (Hnth i (astype_float32 d))
      by (rewrite nth_error_map, Hdi; reflexivity).
    rewrite Hqi. simpl. unfold negated.
    destruct (scan_visible s qi || visible_from_any ss qi); [|reflexivity].
    now rewrite Hinv.
Qed.

(** C10.  On a point cloud whose [scans] field is [None], [get_sdf] with
    [use_depth_buffer=True] never returns an array: the call raises, and
    once the nearest-neighbour query has answered, what it raises is the
    TypeError of iterating over [None] in [is_outside]. *)
Theorem get_sdf_depth_buffer_without_scans (self : SurfacePointCloud F)
    (q : list (vec3 F)) (k : nat) :
  scans self = None ->
  exists e,
    get_sdf self q true k = Err e /\
    (is_ok (KDTree_query (kd_tree self) q 1) = true -> e = TypeError).
Proof.
  intros Hs. unfold get_sdf, is_outside. rewrite Hs.
  destruct (KDTree_query (kd_tree self) q 1) as [[d i]|e]; simpl.
  - exists TypeError. split; reflexivity.
  - exists e. split; [reflexivity|discriminate].
Qed.
End DepthBuffer.

(* ================================================================== *)
(** ** Reshaping and padding *)

(** Reading an array wrapped between a first and a last element. *)
Lemma nth_error_wrapped {A B} (f : B -> A) (x y : A) (l : list B) (i : nat) :
  nth_error (x :: map f l ++ [y]) i =
  match i with
  | O => Some x
  | S i' => if (i' <? length l)%nat then option_map f (nth_error l i')
            else if (i' =? length l)%nat then Some y else None
  end.
Proof.
  destruct i as [|i]; [reflexivity|]. simpl.
  destruct (i <? length l)%nat eqn:Hi.
  - apply Nat.ltb_lt in Hi.
    rewrite nth_error_app1 by (now rewrite length_map).
    apply nth_error_map.
  - apply Nat.ltb_ge in Hi.
    rewrite nth_error_app2 by (now rewrite length_map).
    rewrite length_map.
    destruct (i =? length l)%nat eqn:Hi'.
    + apply Nat.eqb_eq in Hi'. subst i. now rewrite Nat.sub_diag.
    + apply Nat.eqb_neq in Hi'.
      destruct (i - length l)%nat as [|j] eqn:Hj; [lia|].
      simpl. now destruct j.
Qed.

Lemma repeat_nth_error {A} (x : A) (n i : nat) :
  (i < n)%nat -> nth_error (repeat x n) i = Some x.
Proof.
  revert i; induction n as [|n IH]; intros [|i] Hi; simpl; try lia.
  - reflexivity.
  - apply IH. lia.
Qed.

Section Shapes.
Context {A : Type}.

Lemma chunks_length (n m : nat) (l : list A) : length (chunks n m l) = m.
Proof.
  revert l; induction m as [|m IH]; intros l; simpl; [reflexivity|].
  now rewrite IH.
Qed.

Lemma chunks_Forall (n m : nat) (l : list A) :
  length l = (m * n)%nat -> Forall (fun c => length c = n) (chunks n m l).
Proof.
  revert l; induction m as [|m IH]; intros l Hl; simpl; constructor.
  - rewrite length_firstn. simpl in Hl. lia.
  - apply IH. rewrite length_skipn. simpl in Hl. lia.
Qed.

Lemma np_reshape3_shape (a : list A) (r : Z) v :
  np_reshape3 a r = Ok v ->
  has_shape3 v (Z.to_nat r) (Z.to_nat r) (Z.to_nat r).
Proof.
  unfold np_reshape3.
  destruct (r <? 0) eqn:Hr; [discriminate|].
  destruct (Z.of_nat (length a) =? r * r * r) eqn:Hlen; [|discriminate].
  simpl. intros Hv; inversion Hv; subst v; clear Hv.
  apply Z.ltb_ge in Hr. apply Z.eqb_eq in Hlen.
  set (n := Z.to_nat r).
  assert (Hn : length a = (n * (n * n))%nat).
  { apply Nat2Z.inj. rewrite !Nat2Z.inj_mul. unfold n.
    rewrite Z2Nat.id by assumption. lia. }
  split.
  - now rewrite length_map, chunks_length.
  - apply Forall_map.
    eapply Forall_impl; [|apply chunks_Forall; exact Hn].
    intros p Hp. simpl in Hp. split.
    + apply chunks_length.
    + apply chunks_Forall. exact Hp.
Qed.

Lemma np_reshape3_total (a : list A) (r : Z) :
  0 <= r -> Z.of_nat (length a) = r * r * r ->
  exists v, np_reshape3 a r = Ok v.
Proof.
  intros Hr Hlen. unfold np_reshape3.
  destruct (r <? 0) eqn:Hr'; [apply Z.ltb_lt in Hr'; lia|].
  rewrite (proj2 (Z.eqb_eq _ _) Hlen). simpl. eauto.
Qed.

Lemma np_shape3_of (v : list (list (list A))) (a b c : nat) :
  has_shape3 v (S a) b c -> (0 < b)%nat \/ c = O ->
  np_shape3 v = (S a, b, c).
Proof.
  intros [Hlen HF] Hb. unfold np_shape3.
  destruct v as [|p v]; [discriminate|].
  inversion HF as [|? ? [Hp Hrows] _]; subst b.
  simpl in Hlen. injection Hlen as Hlen. subst a. simpl.
  destruct p as [|row p]; simpl.
  - destruct Hb as [Hb|Hb]; [simpl in Hb; lia | now subst].
  - inversion Hrows; subst. reflexivity.
Qed.

(** The padded array: its shape, its shell and its interior. *)
Lemma np_pad1_spec (c : A) (v : list (list (list A))) (n : nat) :
  has_shape3 v (S n) (S n) (S n) ->
  has_shape3 (np_pad1 c v) (S n + 2) (S n + 2) (S n + 2) /\
  (forall i j k,
      (i < S n + 2)%nat -> (j < S n + 2)%nat -> (k < S n + 2)%nat ->
      i = O \/ i = S (S n) \/ j = O \/ j = S (S n) \/ k = O \/ k = S (S n) ->
      get3 (np_pad1 c v) i j k = Some c) /\
  (forall i j k,
      (i < S n)%nat -> (j < S n)%nat -> (k < S n)%nat ->
      get3 (np_pad1 c v) (S i) (S j) (S k) = get3 v i j k).
Proof.
  intros Hshape.
  pose proof (np_shape3_of v n (S n) (S n) Hshape
                (or_introl (Nat.lt_0_succ n))) as Hsh.
  destruct Hshape as [Hlen HF].
  unfold np_pad1. rewrite Hsh.
  assert (Hface : forall j k, (j < S n + 2)%nat -> (k < S n + 2)%nat ->
            match nth_error (repeat (repeat c (S n + 2)) (S n + 2)) j with
            | Some row => nth_error row k
            | None => None
            end = Some c).
  { intros j k Hj Hk. rewrite repeat_nth_error by assumption.
    now apply repeat_nth_error. }
  split; [|split].
  - split.
    + simpl. rewrite length_app, length_map, Hlen. simpl. lia.
    + constructor; [|apply Forall_app; split].
      * split; [apply repeat_length|].
        apply Forall_forall. intros row Hrow.
        apply repeat_spec in Hrow. subst row. apply repeat_length.
      * apply Forall_map. eapply Forall_impl; [|exact HF].
        intros p [Hp Hrows]. unfold pad_plane. split.
        -- simpl. rewrite length_app, length_map, Hp. simpl. lia.
        -- constructor; [apply repeat_length|].
           apply Forall_app. split.
           ++ apply Forall_map. eapply Forall_impl; [|exact Hrows].
              intros row Hrow. unfold pad_row. simpl.
              rewrite length_app, Hrow. simpl. lia.
           ++ constructor; [apply repeat_length|constructor].
      * constructor; [|constructor].
        split; [apply repeat_length|].
        apply Forall_forall. intros row Hrow.
        apply repeat_spec in Hrow. subst row. apply repeat_length.
  - intros i j k Hi Hj Hk Hshell.
    unfold get3. rewrite nth_error_wrapped, Hlen.
    destruct i as [|i]; [now apply Hface|].
    destruct (i <? S n)%nat eqn:Hi'.
    + apply Nat.ltb_lt in Hi'.
      destruct (nth_error v i) as [p|] eqn:Hp;
        [|apply nth_error_None in Hp; lia].
      simpl. rewrite Forall_forall in HF.
      destruct (HF p (nth_error_In _ _ Hp)) as [Hpl Hrows].
      unfold pad_plane. rewrite nth_error_wrapped, Hpl.
      destruct j as [|j]; [now apply repeat_nth_error|].
      destruct (j <? S n)%nat eqn:Hj'.
      * apply Nat.ltb_lt in Hj'.
        destruct (nth_error p j) as [row|] eqn:Hrow;
          [|apply nth_error_None in Hrow; lia].
        simpl. rewrite Forall_forall in Hrows.
        pose proof (Hrows row (nth_error_In _ _ Hrow)) as Hrl.
        unfold pad_row.
        destruct k as [|k]; [reflexivity|]. simpl.
        assert (Hk' : k = S n) by lia. subst k.
        rewrite nth_error_app2 by lia. rewrite Hrl, Nat.sub_diag. reflexivity.
      * apply Nat.ltb_ge in Hj'.
        replace (j =? S n)%nat with true by (symmetry; apply Nat.eqb_eq; lia).
        now apply repeat_nth_error.
    + apply Nat.ltb_ge in Hi'.
      replace (i =? S n)%nat with true by (symmetry; apply Nat.eqb_eq; lia).
      now apply Hface.
  - intros i j k Hi Hj Hk.
    unfold get3. rewrite nth_error_wrapped, Hlen.
    rewrite (proj2 (Nat.ltb_lt _ _) Hi).
    destruct (nth_error v i) as [p|] eqn:Hp;
      [|apply nth_error_None in Hp; lia].
    cbn [option_map]. rewrite Forall_forall in HF.
    destruct (HF p (nth_error_In _ _ Hp)) as [Hpl Hrows].
    unfold pad_plane. rewrite nth_error_wrapped, Hpl.
    rewrite (proj2 (Nat.ltb_lt _ _) Hj).
    destruct (nth_error p j) as [row|] eqn:Hrow;
      [|apply nth_error_None in Hrow; lia].
    cbn [option_map]. rewrite Forall_forall in Hrows.
    pose proof (Hrows row (nth_error_In _ _ Hrow)) as Hrl.
    unfold pad_row. cbn [nth_error].
    apply nth_error_app1. lia.
Qed.
End Shapes.

(* ================================================================== *)
(** ** Batches *)

Lemma Qceiling_pos (x : Q) : (0 < x)%Q -> 0 < Qceiling x.
Proof.
  intros Hx. rewrite Zlt_Qlt.
  eapply Qlt_le_trans; [exact Hx | apply Qle_ceiling].
Qed.

Lemma range_pos (c : Z) : 0 < c -> exists l, range c = 0 :: l.
Proof.
  intros Hc. unfold range.
  destruct (Z.to_nat c) as [|m] eqn:Hm; [lia|].
  simpl. eauto.
Qed.

Section Batches.
Context {F : Type} {FL : Float F} {E : Collaborators F}.

(** At most [batch_size] points: one direct call of [get_sdf]. *)
Lemma get_sdf_in_batches_direct (self : SurfacePointCloud F) q udb k b :
  py_le (PyInt (Z.of_nat (length q))) b = true ->
  get_sdf_in_batches self q udb k b = get_sdf self q udb k.
Proof. intros Hle. unfold get_sdf_in_batches. now rewrite Hle. Qed.

(** More points than a float [batch_size]: the first batch is sliced
    with float bounds, which numpy refuses.  The batch count is the
    exact quotient here; [get_sdf_in_batches_float_raises] names the
    range in which the float division of the code is finite. *)
Lemma get_sdf_in_batches_float (self : SurfacePointCloud F) q udb k (b : Q) :
  (0 < b)%Q ->
  (b < inject_Z (Z.of_nat (length q)))%Q ->
  get_sdf_in_batches self q udb k (PyFloat b) = Err TypeError.
Proof.
  intros Hb Hn. unfold get_sdf_in_batches, py_le, py_truediv. simpl.
  destruct (Qle_bool (inject_Z (Z.of_nat (length q))) b) eqn:Hle.
  - apply Qle_bool_iff in Hle. exfalso.
    apply (Qlt_irrefl b). eapply Qlt_le_trans; eassumption.
  - destruct (Qeq_bool b 0) eqn:Hz.
    + apply Qeq_bool_iff in Hz. rewrite Hz in Hb.
      exfalso. apply (Qlt_irrefl 0). exact Hb.
    + simpl.
      assert (Hc : 0 < math_ceil (inject_Z (Z.of_nat (length q)) / b)).
      { apply Qceiling_pos. apply Qlt_shift_div_l; [exact Hb|].
        rewrite Qmult_0_l. eapply Qlt_trans; eassumption. }
      destruct (range_pos _ Hc) as [l Hl]. rewrite Hl. reflexivity.
Qed.

(** A resolution whose raster exceeds the default batch size of [1e6]
    points: [get_voxels] raises the TypeError of the float slice. *)
Lemma get_voxels_beyond_default_batch (self : SurfacePointCloud F)
    (r : Z) udb k pad check :
  1000000 < Z.of_nat (length (get_raster_points r)) ->
  get_voxels self r udb k pad check = Err TypeError.
Proof.
  intros Hn. unfold get_voxels, default_batch_size.
  rewrite get_sdf_in_batches_float; [reflexivity|reflexivity|].
  now rewrite Zlt_Qlt in Hn.
Qed.

(** C6.  When [check_result] is set and the quality heuristic rejects the
    volume computed from the raster points, [get_voxels] raises
    BadMeshException, with or without padding: no volume is returned. *)
Theorem get_voxels_rejected (self : SurfacePointCloud F) (r : Z)
    udb k (pad : bool) sdf voxels :
  get_sdf_in_batches self (get_raster_points r) udb k default_batch_size
    = Ok sdf ->
  np_reshape3 sdf r = Ok voxels ->
  check_voxels voxels = false ->
  get_voxels self r udb k pad true = Err BadMeshException.
Proof.
  intros Hsdf Hv Hcheck. unfold get_voxels.
  rewrite Hsdf. simpl. rewrite Hv. simpl. now rewrite Hcheck.
Qed.

(** X7.  Up to [1e6] raster points, once [get_sdf] has answered the
    raster with one value per point, [get_voxels] returns a volume of
    shape (R,R,R) without padding and, with padding, a volume of shape
    (R+2,R+2,R+2) whose outer shell is all ones and whose interior is
    the unpadded volume. *)
Lemma get_voxels_within_default_batch (self : SurfacePointCloud F)
    (r : Z) udb k sdf :
  1 <= r ->
  Z.of_nat (length (get_raster_points r)) = r * r * r ->
  r * r * r <= 1000000 ->
  get_sdf self (get_raster_points r) udb k = Ok sdf ->
  length sdf = length (get_raster_points r) ->
  let n := Z.to_nat r in
  exists v,
    get_voxels self r udb k false false = Ok v /\
    has_shape3 v n n n /\
    get_voxels self r udb k true false = Ok (np_pad1 (f_of_Z 1) v) /\
    has_shape3 (np_pad1 (f_of_Z 1) v) (n + 2) (n + 2) (n + 2) /\
    (forall i j k',
        (i < n + 2)%nat -> (j < n + 2)%nat -> (k' < n + 2)%nat ->
        i = O \/ i = S n \/ j = O \/ j = S n \/ k' = O \/ k' = S n ->
        get3 (np_pad1 (f_of_Z 1) v) i j k' = Some (f_of_Z 1)) /\
    (forall i j k',
        (i < n)%nat -> (j < n)%nat -> (k' < n)%nat ->
        get3 (np_pad1 (f_of_Z 1) v) (S i) (S j) (S k') = get3 v i j k').
Proof.
  intros Hr Hlen Hsmall Hsdf Hl n.
  assert (Hdirect : get_sdf_in_batches self (get_raster_points r) udb k
                      default_batch_size = Ok sdf).
  { rewrite get_sdf_in_batches_direct; [exact Hsdf|].
    unfold py_le, default_batch_size. simpl.
    apply Qle_bool_iff. rewrite <- Zle_Qle. lia. }
  destruct (np_reshape3_total sdf r) as [v Hv]; [lia|lia|].
  pose proof (np_reshape3_shape _ _ _ Hv) as Hshape. fold n in Hshape.
  destruct n as [|m] eqn:Hn; [lia|].
  destruct (np_pad1_spec (f_of_Z 1) v m Hshape) as [Hps [Hshell Hin]].
  exists v. unfold get_voxels. rewrite Hdirect. simpl. rewrite Hv. simpl.
  split; [reflexivity|]. split; [exact Hshape|].
  split; [reflexivity|]. split; [exact Hps|].
  split; assumption.
Qed.
End Batches.

(* ================================================================== *)
(** ** Integer batch sizes *)

Lemma ceil_div_bounds (n B : Z) :
  1 <= B ->
  let c := math_ceil (inject_Z n / inject_Z B) in
  (c - 1) * B < n <= c * B.
Proof.
  intros HB c. unfold math_ceil in c.
  assert (HBq : (0 < inject_Z B)%Q)
    by (change 0%Q with (inject_Z 0); rewrite <- Zlt_Qlt; lia).
  assert (Hx : (inject_Z n / inject_Z B * inject_Z B == inject_Z n)%Q).
  { rewrite Qmult_comm. apply Qmult_div_r. intros H0.
    rewrite H0 in HBq. now apply Qlt_irrefl in HBq. }
  pose proof (Qle_ceiling (inject_Z n / inject_Z B)) as Hle.
  pose proof (Qceiling_lt (inject_Z n / inject_Z B)) as Hlt.
  fold c in Hle, Hlt.
  split.
  - rewrite Zlt_Qlt, inject_Z_mult, <- Hx.
    apply Qmult_lt_compat_r; assumption.
  - rewrite Zle_Qle, inject_Z_mult, <- Hx.
    apply Qmult_le_compat_r; [assumption|]. now apply Qlt_le_weak.
Qed.

Lemma py_le_int (a b : Z) : py_le (PyInt a) (PyInt b) = (a <=? b).
Proof.
  unfold py_le, Qle_bool. simpl. now rewrite !Z.mul_1_r.
Qed.

Lemma py_min_int (a b : Z) : py_min (PyInt a) (PyInt b) = PyInt (Z.min a b).
Proof.
  unfold py_min, py_lt. rewrite py_le_int.
  destruct (Z.leb_spec a b); simpl; f_equal; lia.
Qed.

Lemma slice_bound_nat (n i : nat) :
  (i <= n)%nat -> slice_bound (Z.of_nat n) (Z.of_nat i) = i.
Proof.
  intros Hi. unfold slice_bound.
  destruct (Z.ltb_spec (Z.of_nat i) 0); lia.
Qed.

Lemma np_slice_int {A} (a : list A) (s e : nat) :
  (s <= e <= length a)%nat ->
  np_slice a (PyInt (Z.of_nat s)) (PyInt (Z.of_nat e))
  = Ok (firstn (e - s) (skipn s a)).
Proof.
  intros Hse. unfold np_slice. simpl.
  rewrite !slice_bound_nat by lia. reflexivity.
Qed.

Lemma np_slice_assign_int {A} (pre mid post v : list A) (s e : nat) :
  s = length pre -> e = (length pre + length mid)%nat ->
  length v = length mid ->
  np_slice_assign (pre ++ mid ++ post)
    (PyInt (Z.of_nat s)) (PyInt (Z.of_nat e)) v
  = Ok (pre ++ v ++ post).
Proof.
  intros Hs He Hv. subst s e. unfold np_slice_assign. simpl.
  rewrite !slice_bound_nat by (rewrite !length_app; lia).
  replace (length pre + length mid - length pre)%nat with (length mid) by lia.
  rewrite skipn_app, skipn_all, Nat.sub_diag. simpl.
  rewrite firstn_app, firstn_all, Nat.sub_diag, firstn_O, app_nil_r.
  rewrite (proj2 (Nat.eqb_eq _ _) Hv).
  rewrite firstn_app, firstn_all, Nat.sub_diag, firstn_O, app_nil_r.
  rewrite skipn_app.
  rewrite (skipn_all2 pre) by lia.
  replace (length pre + length mid - length pre)%nat with (length mid) by lia.
  rewrite skipn_app, skipn_all, Nat.sub_diag. reflexivity.
Qed.

Lemma firstn_length_firstn {A} (b : nat) (l : list A) :
  firstn (length (firstn b l)) l = firstn b l.
Proof.
  rewrite length_firstn.
  destruct (Nat.le_gt_cases b (length l)) as [Hle|Hgt].
  - now rewrite Nat.min_l.
  - rewrite Nat.min_r by lia. rewrite firstn_all.
    symmetry. apply firstn_all2. lia.
Qed.

Section IntegerBatches.
Context {F : Type} {FL : Float F} {E : Collaborators F}.
Variables (self : SurfacePointCloud F) (udb : bool) (k : nat).

(** [get_sdf] returns one value per query point and treats the two
    halves of a query independently of each other. *)
Hypothesis get_sdf_length :
  forall q r, get_sdf self q udb k = Ok r -> length r = length q.
Hypothesis get_sdf_app :
  forall q1 q2, q1 <> [] -> q2 <> [] ->
    get_sdf self (q1 ++ q2) udb k =
    (a <- get_sdf self q1 udb k ;; b <- get_sdf self q2 udb k ;; Ok (a ++ b)).

(** The loop of [get_sdf_in_batches] after [i] batches: [pre] holds the
    values of the points [qpre] already handled, [rest] is still to do
    in [m] batches. *)
Lemma batches_loop (b : nat) :
  (1 <= b)%nat ->
  forall (m i : nat) (pre : list F) (qpre rest : list (vec3 F)),
    length pre = length qpre ->
    (m = O /\ rest = []) \/
    ((0 < m)%nat /\ length pre = (i * b)%nat /\
     ((m - 1) * b < length rest <= m * b)%nat) ->
    for_each (map Z.of_nat (seq i m))
      (fun i result =>
         let start := py_mul (PyInt i) (PyInt (Z.of_nat b)) in
         let end_ :=
           py_min (PyInt (Z.of_nat (length result)))
                  (py_mul (PyInt (i + 1)) (PyInt (Z.of_nat b))) in
         batch <- np_slice (qpre ++ rest) start end_ ;;
         sdf <- get_sdf self batch udb k ;;
         np_slice_assign result start end_ sdf)
      (pre ++ np_zeros (length rest))
    = match rest with
      | [] => Ok pre
      | _ => r <- get_sdf self rest udb k ;; Ok (pre ++ r)
      end.
Proof.
  intros Hb. induction m as [|m IH]; intros i pre qpre rest Hpq Hinv.
  - destruct Hinv as [[_ Hrest]|[Hm _]]; [|lia].
    subst rest. simpl. now rewrite app_nil_r.
  - destruct Hinv as [[Hm _]|[_ [Hpre Hrest]]]; [discriminate|].
    replace (S m - 1)%nat with m in Hrest by lia.
    set (batch := firstn b rest).
    set (rest' := skipn b rest).
    assert (Hsplit : rest = batch ++ rest') by (symmetry; apply firstn_skipn).
    assert (Hbatch : length batch = Nat.min b (length rest))
      by apply length_firstn.
    assert (Hrest' : length rest' = (length rest - b)%nat)
      by apply length_skipn.
    assert (Hbne : batch <> []).
    { intros H0. rewrite H0 in Hbatch. simpl in Hbatch. lia. }
    assert (Hrne : rest <> []).
    { intros H0. rewrite H0 in Hrest. simpl in Hrest. lia. }
    cbn [seq map for_each].
    (* the bounds of the slice *)
    assert (Hstart : py_mul (PyInt (Z.of_nat i)) (PyInt (Z.of_nat b))
                     = PyInt (Z.of_nat (length pre))).
    { simpl. f_equal. lia. }
    assert (Hend : py_min
                     (PyInt (Z.of_nat (length (pre ++ np_zeros (length rest)))))
                     (py_mul (PyInt (Z.of_nat i + 1)) (PyInt (Z.of_nat b)))
                   = PyInt (Z.of_nat (length pre + length batch))).
    { cbn [py_mul]. rewrite py_min_int. f_equal.
      rewrite length_app. unfold np_zeros. rewrite repeat_length. lia. }
    rewrite Hstart, Hend.
    rewrite np_slice_int by (rewrite length_app; lia).
    replace (length pre + length batch - length pre)%nat
      with (length batch) by lia.
    replace (skipn (length pre) (qpre ++ rest)) with rest
      by (rewrite Hpq, skipn_app, skipn_all, Nat.sub_diag; reflexivity).
    replace (firstn (length batch) rest) with batch
      by (symmetry; apply firstn_length_firstn).
    cbn [bind].
    (* the zeros not yet overwritten *)
    assert (Hzeros : np_zeros (F := F) (length rest)
                     = np_zeros (length batch) ++ np_zeros (length rest')).
    { unfold np_zeros. rewrite <- repeat_app. f_equal. lia. }
    rewrite Hzeros.
    destruct (get_sdf self batch udb k) as [r|e] eqn:Hr.
    + cbn [bind]. pose proof (get_sdf_length _ _ Hr) as Hlr.
      rewrite np_slice_assign_int
        by (unfold np_zeros; rewrite ?repeat_length; solve [reflexivity | exact Hlr]).
      cbn [bind]. rewrite app_assoc.
      assert (Hq : qpre ++ rest = (qpre ++ batch) ++ rest')
        by (rewrite <- app_assoc; now rewrite <- Hsplit).
      rewrite Hq.
      pose proof (IH (S i) (pre ++ r) (qpre ++ batch) rest') as IH'.
      cbv zeta in IH'. rewrite IH'; clear IH'.
      * destruct rest' as [|x rest''] eqn:Hx.
        -- rewrite app_nil_r in Hsplit. destruct rest; [congruence|].
           rewrite Hsplit, Hr. reflexivity.
        -- destruct rest; [congruence|].
           rewrite Hsplit, get_sdf_app, Hr by (assumption || discriminate).
           cbn [bind].
           destruct (get_sdf self (x :: rest'') udb k); cbn [bind];
             [now rewrite app_assoc|reflexivity].
      * rewrite !length_app. lia.
      * destruct m as [|m'].
        -- left. split; [reflexivity|].
           apply length_zero_iff_nil. lia.
        -- right. rewrite length_app. simpl in Hrest. simpl. nia.
    + cbn [bind].
      destruct rest' as [|x rest''] eqn:Hx.
      * rewrite app_nil_r in Hsplit. destruct rest; [congruence|].
        rewrite Hsplit, Hr. reflexivity.
      * destruct rest; [congruence|].
        rewrite Hsplit, get_sdf_app, Hr by (assumption || discriminate).
        reflexivity.
Qed.

(** With an integer batch size, batching does not change the result. *)
Lemma get_sdf_in_batches_int (q : list (vec3 F)) (B : Z) :
  1 <= B ->
  get_sdf_in_batches self q udb k (PyInt B) = get_sdf self q udb k.
Proof.
  intros HB. unfold get_sdf_in_batches.
  rewrite py_le_int.
  destruct (Z.leb_spec (Z.of_nat (length q)) B) as [Hle|Hgt]; [reflexivity|].
  unfold py_truediv. cbn [py_value].
  destruct (Qeq_bool (inject_Z B) 0) eqn:Hz.
  { apply Qeq_bool_iff in Hz. unfold Qeq in Hz. simpl in Hz. lia. }
  cbn [bind].
  pose proof (ceil_div_bounds (Z.of_nat (length q)) B HB) as Hc.
  cbv zeta in Hc.
  set (c := math_ceil (inject_Z (Z.of_nat (length q)) / inject_Z B)) in *.
  unfold range.
  replace (PyInt B) with (PyInt (Z.of_nat (Z.to_nat B)))
    by (f_equal; lia).
  pose proof (batches_loop (Z.to_nat B) ltac:(lia) (Z.to_nat c) O [] [] q
                eq_refl) as Hloop.
  simpl app in Hloop. cbv zeta in Hloop |- *. rewrite Hloop.
  - destruct q as [|x q']; [simpl in Hgt; lia|].
    destruct (get_sdf self (x :: q') udb k); reflexivity.
  - right. simpl length. split; [nia|]. split; [reflexivity|]. nia.
Qed.

(** Two integer batch sizes give one result. *)
Lemma get_sdf_in_batches_int_int (q : list (vec3 F)) (B1 B2 : Z) :
  1 <= B1 -> 1 <= B2 ->
  get_sdf_in_batches self q udb k (PyInt B1)
  = get_sdf_in_batches self q udb k (PyInt B2).
Proof.
  intros H1 H2. now rewrite !get_sdf_in_batches_int.
Qed.
End IntegerBatches.

(* ================================================================== *)
(** ** Camera angles *)

Lemma mapM_ok_map {A B} (f : A -> result B) (g : A -> B) (l : list A) :
  (forall a, In a l -> f a = Ok (g a)) -> mapM f l = Ok (map g l).
Proof.
  induction l as [|a l IH]; intros Hf; simpl; [reflexivity|].
  rewrite (Hf a (or_introl eq_refl)). simpl.
  rewrite IH by (intros b Hb; apply Hf; now right). reflexivity.
Qed.

Lemma range_In (n i : Z) : In i (range n) <-> 0 <= i < n.
Proof.
  unfold range. rewrite in_map_iff. split.
  - intros [m [Hm Hin]]. apply in_seq in Hin. lia.
  - intros Hi. exists (Z.to_nat i). split; [lia|]. apply in_seq. lia.
Qed.

Lemma range_length (n : Z) : length (range n) = Z.to_nat n.
Proof. unfold range. now rewrite length_map, length_seq. Qed.

Lemma range_NoDup (n : Z) : NoDup (range n).
Proof.
  unfold range. apply NoDup_map_NoDup_ForallPairs; [|apply seq_NoDup].
  intros a b _ _. apply Nat2Z.inj.
Qed.

Lemma range_nth_error (n i : Z) :
  0 <= i < n -> nth_error (range n) (Z.to_nat i) = Some i.
Proof.
  intros Hi. unfold range. rewrite nth_error_map.
  rewrite nth_error_seq.
  destruct (Nat.ltb_spec (Z.to_nat i) (Z.to_nat n)) as [_|Hge]; [|lia].
  simpl. f_equal. lia.
Qed.

Section AnglesAnyScalar.
Context {F : Type} {FL : Float F} {M : Math F}.

(** One view: the division by [count - 1 = 0] raises at the first
    iteration. *)
Lemma angles_of_one :
  get_equidistant_camera_angles (F := F) 1 = Err ZeroDivisionError.
Proof. reflexivity. Qed.

(** No view: the generator yields nothing. *)
Lemma angles_of_none (count : Z) :
  count <= 0 -> get_equidistant_camera_angles (F := F) count = Ok [].
Proof.
  intros Hc. unfold get_equidistant_camera_angles, range.
  replace (Z.to_nat count) with O by lia. reflexivity.
Qed.

Context {E : Collaborators F}.

Lemma create_from_scans_of_angles (m : Mesh) (radius : F) (count res : Z)
    (calc : bool) (angles : list (F * F)) :
  get_equidistant_camera_angles count = Ok angles ->
  angles <> [] ->
  let ss := map (fun a : F * F =>
                   Scan_new m (fst a) (snd a) radius res calc) angles in
  create_from_scans m radius count res calc =
  SurfacePointCloud_init m (concat (map (@scan_points F) ss))
    (if calc then Some (concat (map (@scan_normals F) ss)) else None)
    (Some ss).
Proof.
  intros Ha Hne ss. unfold create_from_scans. rewrite Ha. simpl.
  fold ss. destruct angles as [|a angles]; [congruence|].
  simpl in ss. unfold ss. simpl. now destruct calc.
Qed.

(** What [create_from_scans] raises below two views. *)
Lemma create_from_scans_below_two (m : Mesh) (radius : F) (count res : Z)
    (calc : bool) :
  count < 2 ->
  create_from_scans m radius count res calc =
  Err (if count =? 1 then ZeroDivisionError else ValueError).
Proof.
  intros Hc. unfold create_from_scans.
  destruct (count =? 1) eqn:H1.
  - apply Z.eqb_eq in H1. subst count. now rewrite angles_of_one.
  - apply Z.eqb_neq in H1. rewrite angles_of_none by lia. reflexivity.
Qed.

(** The constructor adds no check to the one of the index. *)
Lemma SurfacePointCloud_init_eq (m : Mesh) pts ns ss :
  SurfacePointCloud_init m pts ns ss =
  match KDTree_new pts with
  | Ok tree => Ok {| mesh := m; points := pts; normals := ns;
                     scans := ss; kd_tree := tree |}
  | Err e => Err e
  end.
Proof. reflexivity. Qed.
End AnglesAnyScalar.

Section AnglesReal.
Local Open Scope R_scope.


Lemma ratio_bounds (C i : Z) :
  (2 <= C)%Z -> (0 <= i < C)%Z ->
  -1 <= -1 + 2 * IZR i / (IZR C - 1) <= 1.
Proof.
  intros HC Hi.
  assert (HCr : 1 <= IZR C - 1).
  { apply IZR_le in HC. lra. }
  assert (Hi0 : 0 <= IZR i) by (apply IZR_le; lia).
  assert (Hi1 : IZR i <= IZR C - 1).
  { rewrite <- minus_IZR. apply IZR_le. lia. }
  assert (Hinv : 0 < / (IZR C - 1)) by (apply Rinv_0_lt_compat; lra).
  assert (Hone : (IZR C - 1) * / (IZR C - 1) = 1) by (apply Rinv_r; lra).
  unfold Rdiv. split; nra.
Qed.

Lemma elevation_inj (C i j : Z) :
  (2 <= C)%Z -> (0 <= i < C)%Z -> (0 <= j < C)%Z ->
  elevation C i = elevation C j -> i = j.
Proof.
  intros HC Hi Hj Heq. unfold elevation in Heq.
  apply (f_equal sin) in Heq.
  rewrite !sin_asin in Heq by (apply ratio_bounds; assumption).
  assert (HCr : 1 <= IZR C - 1).
  { apply IZR_le in HC. lra. }
  apply eq_IZR.
  assert (Hm : 2 * IZR i / (IZR C - 1) * (IZR C - 1)
               = 2 * IZR j / (IZR C - 1) * (IZR C - 1))
    by (f_equal; lra).
  unfold Rdiv in Hm. rewrite !Rmult_assoc, Rinv_l in Hm by lra. lra.
Qed.

(** From two views on, every iteration of the generator succeeds. *)
Lemma angles_real (C : Z) :
  (2 <= C)%Z ->
  get_equidistant_camera_angles (F := R) C =
  Ok (map (fun i => (azimuth i, elevation C i)) (range C)).
Proof.
  intros HC. unfold get_equidistant_camera_angles.
  apply mapM_ok_map. intros i Hi. apply range_In in Hi.
  destruct (C - 1 =? 0)%Z eqn:HC1; [apply Z.eqb_eq in HC1; lia|].
  cbn [bind]. unfold math_asin, R_Math.
  assert (Harg : f_add (f_of_Z (-1)) (f_div (f_of_Z (2 * i)) (f_of_Z (C - 1)))
                 = -1 + 2 * IZR i / (IZR C - 1)).
  { unfold f_add, f_div, f_of_Z, R_Float.
    rewrite mult_IZR, minus_IZR. reflexivity. }
  rewrite Harg.
  destruct (ratio_bounds C i HC Hi) as [Hlo Hhi].
  destruct (Rle_dec (-1) (-1 + 2 * IZR i / (IZR C - 1))); [|contradiction].
  destruct (Rle_dec (-1 + 2 * IZR i / (IZR C - 1)) 1); [|contradiction].
  cbn [bind]. unfold azimuth, elevation. simpl.
  do 3 f_equal. ring.
Qed.

(** In exact arithmetic no two views share their pair of angles. *)
Lemma camera_angles_distinct_exact (C : Z) :
  (2 <= C)%Z ->
  NoDup (map (fun i => (azimuth i, elevation C i)) (range C)).
Proof.
  intros HC.
  apply NoDup_map_NoDup_ForallPairs; [|apply range_NoDup].
  intros i j Hi Hj Heq. apply range_In in Hi, Hj.
  injection Heq as _ Hel. eapply elevation_inj; eassumption.
Qed.

End AnglesReal.



(* ================================================================== *)
(** ** Building the point cloud *)

Section Construction.
Context {F : Type} {FL : Float F} {M : Math F} {E : Collaborators F}.

(** C7, amended.  [create_from_scans] validates nothing and knows no
    InvalidInput: with one view it raises the ZeroDivisionError of the
    elevation formula, with no view (a count of zero or below) the
    ValueError of concatenating an empty list of arrays. *)
Theorem create_from_scans_rejects_below_two (m : Mesh) (radius : F)
    (count res : Z) (calc : bool) :
  count < 2 ->
  exists e,
    create_from_scans m radius count res calc = Err e /\
    e = (if count =? 1 then ZeroDivisionError else ValueError) /\
    e <> InvalidInput.
Proof.
  intros Hc. eexists. split; [now apply create_from_scans_below_two|].
  split; [reflexivity|]. destruct (count =? 1); discriminate.
Qed.

(** C8, amended.  Building a point cloud from an empty point set fails
    and returns no object, but not with InvalidInput: the constructor
    has no check of its own, and what is raised is the exception of the
    index constructor, which refuses an empty array with ValueError (as
    sklearn's KDTree does).  The same holds through [sample_from_mesh]
    when the mesh yields no sample. *)
Theorem SurfacePointCloud_empty_fails (m : Mesh)
    (ns : option (list (vec3 F))) (ss : option (list (Scan F)))
    (count : Z) (calc : bool) :
  KDTree_new [] = Err ValueError ->
  SurfacePointCloud_init m [] ns ss = Err ValueError /\
  (forall pc, SurfacePointCloud_init m [] ns ss <> Ok pc) /\
  (mesh_sample m count = [] ->
   sample_from_mesh m count calc = Err ValueError).
Proof.
  intros Hkd.
  assert (Hinit : forall ns' ss',
             SurfacePointCloud_init m [] ns' ss' = Err ValueError).
  { intros ns' ss'. unfold SurfacePointCloud_init. now rewrite Hkd. }
  split; [apply Hinit|]. split.
  - intros pc Hpc. rewrite Hinit in Hpc. discriminate.
  - intros Hempty. unfold sample_from_mesh. rewrite Hempty.
    destruct calc; cbn [map mapM bind]; apply Hinit.
Qed.
End Construction.

Section ConstructionReal.
Context {E : Collaborators R}.

(** C9.  From two views on, [create_from_scans] takes one scan per camera
    angle, [C] scans in the order of the views; unless the index
    constructor refuses the points, the point cloud it returns holds
    these scans, the concatenation of their points in scan order and,
    when normals are requested, the concatenation of their normals in
    the same order; the two arrays have one length as soon as every scan
    has one normal per point. *)
Theorem create_from_scans_spec (m : Mesh) (radius : R) (C res : Z)
    (calc : bool) :
  2 <= C ->
  let ss := map (fun i => Scan_new m (azimuth i) (elevation C i) radius res
                                    calc) (range C) in
  length ss = Z.to_nat C /\
  create_from_scans m radius C res calc =
    match KDTree_new (concat (map (@scan_points R) ss)) with
    | Ok tree =>
        Ok {| mesh := m;
              points := concat (map (@scan_points R) ss);
              normals := if calc
                         then Some (concat (map (@scan_normals R) ss))
                         else None;
              scans := Some ss;
              kd_tree := tree |}
    | Err e => Err e
    end /\
  (Forall (fun s => length (scan_normals s) = length (scan_points s)) ss ->
   length (concat (map (@scan_normals R) ss))
   = length (concat (map (@scan_points R) ss))).
Proof.
  intros HC ss. split; [|split].
  - unfold ss. now rewrite length_map, range_length.
  - rewrite (create_from_scans_of_angles m radius C res calc _
               (angles_real C HC)).
    + cbv zeta.
      replace (map (fun a : R * R => Scan_new m (fst a) (snd a) radius res calc)
                   (map (fun i => (azimuth i, elevation C i)) (range C)))
        with ss by (unfold ss; now rewrite map_map).
      apply SurfacePointCloud_init_eq.
    + destruct (range_pos C ltac:(lia)) as [l Hl]. rewrite Hl. discriminate.
  - intros Hall. induction Hall as [|s l Hs _ IH]; [reflexivity|].
    simpl. now rewrite !length_app, Hs, IH.
Qed.
End ConstructionReal.

(* ================================================================== *)
(** ** The statements on the test double *)

Lemma raster_length {F : Type} {FL : Float F} (r : Z) :
  length (TestDouble.raster (F := F) r)
  = (Z.to_nat r * (Z.to_nat r * Z.to_nat r))%nat.
Proof.
  unfold TestDouble.raster.
  rewrite flat_map_constant_length with (c := (Z.to_nat r * Z.to_nat r)%nat).
  - rewrite range_length. lia.
  - intros x _.
    rewrite flat_map_constant_length with (c := Z.to_nat r).
    + now rewrite range_length.
    + intros y _. now rewrite length_map, range_length.
Qed.

(** C1 on the sampled octahedron: three query points, three neighbours
    each; the second query point is at squared distance 9 of its nearest
    sample and two of its three neighbours vote "inside". *)
Lemma get_sdf_normal_vote_witness :
  exists sdf,
    get_sdf TestData.sampled_cloud TestData.queries false 3 = Ok sdf /\
    length sdf = 3%nat /\
    nth_error sdf 1 = Some (-9).
Proof.
  destruct (get_sdf_normal_vote TestData.sampled_cloud TestData.queries 3
              (map snd TestDouble.octahedron)
              [[4; 4; 4]; [9; 29; 29]; [2; 2; 6]]
              [[0; 1; 2]; [0; 2; 3]; [0; 2; 4]]%nat)
    as [sdf [Hsdf [Hlen Hnth]]].
  - reflexivity.
  - reflexivity.
  - reflexivity.
  - reflexivity.
  - repeat (apply Forall_cons || apply Forall_nil); discriminate.
  - repeat (apply Forall_cons || apply Forall_nil); vm_compute; lia.
  - repeat (apply Forall_cons || apply Forall_nil); vm_compute; lia.
  - exists sdf. split; [exact Hsdf|]. split; [exact Hlen|].
    destruct (Hnth 1%nat (mk3 5 0 0) [9; 29; 29] [0; 2; 3]%nat
                eq_refl eq_refl eq_refl) as [d0 [Hd0 Hv]].
    inversion Hd0; subst d0. exact Hv.
Defined.

(** C2 on the octahedron captured by two scans: the second query point
    is seen by both cameras and keeps its distance, the other two are
    seen by none. *)
Lemma get_sdf_depth_buffer_witness :
  exists sdf,
    get_sdf TestData.scanned_cloud TestData.queries true 3 = Ok sdf /\
    length sdf = 3%nat /\
    nth_error sdf 0 = Some (-4) /\
    nth_error sdf 1 = Some 9.
Proof.
  destruct (get_sdf_depth_buffer TestData.scanned_cloud TestData.queries 3
              (TestDouble.scan TestDouble.octahedron 0 0 1 400 true)
              [TestDouble.scan TestDouble.octahedron 1 0 3 400 true]
              [[4]; [9]; [2]] [[0]; [0]; [0]]%nat)
    as [sdf [Hsdf [Hlen Hnth]]].
  - intros x. unfold neg_one. simpl. lia.
  - reflexivity.
  - reflexivity.
  - reflexivity.
  - repeat (apply Forall_cons || apply Forall_nil); reflexivity.
  - exists sdf. split; [exact Hsdf|]. split; [exact Hlen|]. split.
    + exact (Hnth 0%nat (mk3 0 0 0) 4 eq_refl eq_refl).
    + exact (Hnth 1%nat (mk3 5 0 0) 9 eq_refl eq_refl).
Defined.

(** C10 on the sampled octahedron, whose [scans] field is [None]. *)
Lemma get_sdf_depth_buffer_without_scans_witness :
  exists e,
    get_sdf TestData.sampled_cloud TestData.queries true 3 = Err e /\
    (is_ok (KDTree_query (kd_tree TestData.sampled_cloud)
                         TestData.queries 1) = true -> e = TypeError).
Proof.
  apply (get_sdf_depth_buffer_without_scans TestData.sampled_cloud
           TestData.queries 3).
  reflexivity.
Defined.

(** C6 on the sampled octahedron at resolution 2: the volume has a voxel
    below -1, which the heuristic of the double rejects. *)
Lemma get_voxels_rejected_witness :
  get_voxels TestData.sampled_cloud 2 false 3 true true
  = Err BadMeshException.
Proof.
  apply (get_voxels_rejected TestData.sampled_cloud 2 false 3 true
           [-4; -1; -1; -2; -1; -2; -2; -3]
           [[[-4; -1]; [-1; -2]]; [[-1; -2]; [-2; -3]]]).
  - reflexivity.
  - reflexivity.
  - reflexivity.
Defined.


(** C7 for one view. *)
Lemma create_from_scans_rejects_below_two_witness :
  exists e,
    create_from_scans (E := TestDouble.env) TestData.real_mesh 1%R 1 400 true
    = Err e /\
    e = ZeroDivisionError /\
    e <> InvalidInput.
Proof.
  apply (create_from_scans_rejects_below_two (E := TestDouble.env)
           TestData.real_mesh 1%R 1 400 true).
  lia.
Defined.

(** C7 as stated fails for one view: what is raised is not InvalidInput. *)
Lemma create_from_scans_one_view_not_InvalidInput :
  create_from_scans (E := TestDouble.env) TestData.real_mesh 1%R 1 400 true
  <> Err InvalidInput.
Proof.
  rewrite create_from_scans_below_two by lia. discriminate.
Qed.

(** C8 as stated fails on an index that refuses the empty array as
    sklearn does: what is raised is its ValueError, not InvalidInput. *)
Lemma SurfacePointCloud_init_empty_not_InvalidInput :
  SurfacePointCloud_init (F := Z) (E := TestDouble.env)
    TestDouble.octahedron [] None None
  <> Err InvalidInput.
Proof. discriminate. Qed.

(** C8 on the test double, whose index refuses the empty array. *)
Lemma SurfacePointCloud_empty_fails_witness :
  SurfacePointCloud_init (F := Z) (E := TestDouble.env)
    TestDouble.octahedron [] None None = Err ValueError /\
  (forall pc, SurfacePointCloud_init (F := Z) (E := TestDouble.env)
                TestDouble.octahedron [] None None <> Ok pc) /\
  (mesh_sample (Collaborators := TestDouble.env (F := Z))
     TestDouble.octahedron 0 = [] ->
   sample_from_mesh (E := TestDouble.env) TestDouble.octahedron 0 true
   = Err ValueError).
Proof.
  apply (SurfacePointCloud_empty_fails (E := TestDouble.env)
           TestDouble.octahedron None None 0 true).
  reflexivity.
Defined.

(** C9 for two views of a mesh with one sample. *)
Lemma create_from_scans_spec_witness :
  exists pc,
    create_from_scans (E := TestDouble.env) TestData.real_mesh 1%R 2 400 true
    = Ok pc /\
    option_map (@length (Scan R)) (scans pc) = Some 2%nat /\
    length (points pc) = 2%nat /\
    option_map (@length (vec3 R)) (normals pc) = Some 2%nat.
Proof.
  destruct (create_from_scans_spec (E := TestDouble.env)
              TestData.real_mesh 1%R 2 400 true) as [Hlen [Heq Hn]].
  - lia.
  - eexists. split; [rewrite Heq; reflexivity|].
    split; [reflexivity|]. split; reflexivity.
Defined.

(** C3 at its failing input: three query points; with the float batch
    size 2.0 the first batch is sliced with float bounds and the call
    raises TypeError, with the float batch size 3.0 it returns the three
    signed distances. *)
Theorem get_sdf_in_batches_float_batch_size :
  get_sdf_in_batches TestData.sampled_cloud TestData.queries false 3
    (PyFloat (inject_Z 2)) = Err TypeError /\
  get_sdf_in_batches TestData.sampled_cloud TestData.queries false 3
    (PyFloat (inject_Z 3)) = Ok [-4; -9; -2].
Proof. split; reflexivity. Qed.

(** C5 at its failing input: at resolution 101 the raster has 1030301
    points, more than the default batch size, and [get_voxels] raises
    TypeError instead of returning a volume. *)
Theorem get_voxels_resolution_101 :
  get_voxels TestData.sampled_cloud 101 false 11 false false = Err TypeError.
Proof.
  apply get_voxels_beyond_default_batch.
  change (get_raster_points 101) with (TestDouble.raster (F := Z) 101).
  rewrite raster_length, !Nat2Z.inj_mul, !Z2Nat.id by lia. lia.
Qed.

(** Integer batch sizes on the sampled octahedron: batches of one, two
    or three points give the result of the direct call. *)
Example get_sdf_in_batches_int_sizes :
  get_sdf_in_batches TestData.sampled_cloud TestData.queries false 3 (PyInt 1)
  = Ok [-4; -9; -2] /\
  get_sdf_in_batches TestData.sampled_cloud TestData.queries false 3 (PyInt 2)
  = Ok [-4; -9; -2] /\
  get_sdf_in_batches TestData.sampled_cloud TestData.queries false 3 (PyInt 3)
  = Ok [-4; -9; -2] /\
  get_sdf_in_batches TestData.scanned_cloud TestData.queries true 3 (PyInt 2)
  = get_sdf TestData.scanned_cloud TestData.queries true 3.
Proof. repeat split; reflexivity. Qed.

(** The padded volume of the sampled octahedron at resolution 2. *)
Example get_voxels_padded_2 :
  get_voxels TestData.sampled_cloud 2 false 3 true false =
  Ok [[[1; 1; 1; 1]; [1; 1; 1; 1]; [1; 1; 1; 1]; [1; 1; 1; 1]];
      [[1; 1; 1; 1]; [1; -4; -1; 1]; [1; -1; -2; 1]; [1; 1; 1; 1]];
      [[1; 1; 1; 1]; [1; -1; -2; 1]; [1; -2; -3; 1]; [1; 1; 1; 1]];
      [[1; 1; 1; 1]; [1; 1; 1; 1]; [1; 1; 1; 1]; [1; 1; 1; 1]]].
Proof. reflexivity. Qed.

(* ================================================================== *)
(** ** Further properties: edge cases of the two strategies *)

Section EdgeCases.
Context {F : Type} {FL : Float F} {E : Collaborators F}.

(** X9.  Without normals the normal vote cannot be evaluated:
    [get_sdf] with [use_depth_buffer=False] raises on every query, and
    once the index has answered with one row of in-range indices per
    query point, what it raises is the TypeError of subscripting
    [None]. *)
Theorem get_sdf_normal_vote_without_normals (self : SurfacePointCloud F)
    (q : list (vec3 F)) (k : nat) :
  normals self = None ->
  exists e,
    get_sdf self q false k = Err e /\
    (forall d i,
        KDTree_query (kd_tree self) q k = Ok (d, i) ->
        length i = length q ->
        Forall (Forall (fun j => (j < length (points self))%nat)) i ->
        e = TypeError).
Proof.
  intros Hn. unfold get_sdf. rewrite Hn.
  destruct (KDTree_query (kd_tree self) q k) as [[d i]|e] eqn:Hq.
  - cbn [bind].
    destruct (np_take (points self) i) as [cp|e] eqn:Hcp.
    + cbn [bind].
      destruct (np_sub_broadcast q cp) as [dir|e] eqn:Hdir.
      * cbn [bind]. exists TypeError. split; [reflexivity|]. intros; reflexivity.
      * cbn [bind]. exists e. split; [reflexivity|].
        intros d' i' Hdi Hlen _. inversion Hdi; subst d' i'.
        unfold np_take in Hcp. apply mapM_Forall2 in Hcp.
        apply Forall2_length in Hcp.
        unfold np_sub_broadcast in Hdir.
        replace (length q =? length cp)%nat with true in Hdir
          by (symmetry; apply Nat.eqb_eq; lia).
        discriminate.
    + cbn [bind]. exists e. split; [reflexivity|].
      intros d' i' Hdi _ Hin. inversion Hdi; subst d' i'.
      destruct (np_take_total (points self) Hin) as [cp Hcp'].
      congruence.
  - cbn [bind]. exists e. split; [reflexivity|]. intros d i Hdi. discriminate.
Qed.

(** X10.  With an empty list of scans (not [None]) the loop of
    [is_outside] leaves its result at [None], the index [None] selects
    the whole array, and [get_sdf] with [use_depth_buffer=True] negates
    every distance twice: every query point gets its plain distance, as
    if it were outside.  Relies on [x * -1 * -1 = x]. *)
Theorem get_sdf_depth_buffer_empty_scans (self : SurfacePointCloud F)
    (q : list (vec3 F)) (k : nat) dists idxs :
  (forall x : F, f_mul (f_mul x neg_one) neg_one = x) ->
  scans self = Some [] ->
  KDTree_query (kd_tree self) q 1 = Ok (dists, idxs) ->
  get_sdf self q true k = Ok (concat (map (map astype_float32) dists)).
Proof.
  intros Hinv Hs Hq. unfold get_sdf, is_outside. rewrite Hq, Hs.
  cbn [bind fold_left np_imul_at]. f_equal.
  rewrite map_map. rewrite <- (map_id (concat _)) at 2.
  apply map_ext. intros x. apply Hinv.
Qed.
End EdgeCases.

(* ================================================================== *)
(** ** Further properties: batch sizes *)

Lemma range_nonpos (c : Z) : c <= 0 -> range c = [].
Proof.
  intros Hc. unfold range. now replace (Z.to_nat c) with O by lia.
Qed.

Lemma Qdiv_nonneg_neg (n : Z) (b : Q) :
  0 <= n -> (b < 0)%Q -> (inject_Z n / b <= 0)%Q.
Proof.
  intros Hn Hb. destruct b as [bn bd].
  unfold Qlt in Hb. simpl in Hb.
  destruct bn as [|p|p]; try lia.
  unfold Qle, Qdiv, Qmult, Qinv. simpl. nia.
Qed.

Section BatchSizes.
Context {F : Type} {FL : Float F} {E : Collaborators F}.

(** X3.  More points than a positive float [batch_size] (which the
    default [1e6] is), the batch count being finite: the first batch is
    sliced with float bounds and [get_sdf_in_batches] raises TypeError,
    whatever the point cloud and the strategy.  The quotient
    [n / batch_size] is taken exactly here; it is required to stay below
    [2^1023], where the float division of the code does not overflow
    (for a batch size so small that it does, [math.ceil] raises
    OverflowError instead). *)
Theorem get_sdf_in_batches_float_raises (self : SurfacePointCloud F)
    (q : list (vec3 F)) (udb : bool) (k : nat) (b : Q) :
  (0 < b)%Q ->
  (b < inject_Z (Z.of_nat (length q)))%Q ->
  (inject_Z (Z.of_nat (length q)) / b < inject_Z (2 ^ 1023))%Q ->
  get_sdf_in_batches self q udb k (PyFloat b) = Err TypeError.
Proof.
  intros Hb Hn _. unfold get_sdf_in_batches, py_le, py_truediv. cbn [py_value].
  destruct (Qle_bool (inject_Z (Z.of_nat (length q))) b) eqn:Hle.
  - apply Qle_bool_iff in Hle. exfalso.
    apply (Qlt_irrefl b). eapply Qlt_le_trans; eassumption.
  - destruct (Qeq_bool b 0) eqn:Hz.
    + apply Qeq_bool_iff in Hz. rewrite Hz in Hb.
      exfalso. apply (Qlt_irrefl 0). exact Hb.
    + cbn [bind].
      assert (Hc : 0 < math_ceil (inject_Z (Z.of_nat (length q)) / b)).
      { apply Qceiling_pos. apply Qlt_shift_div_l; [exact Hb|].
        rewrite Qmult_0_l. eapply Qlt_trans; eassumption. }
      destruct (range_pos _ Hc) as [l Hl]. rewrite Hl.
      (* the first iteration: [start] is the float [0 * b] *)
      reflexivity.
Qed.

(** X4.  A negative [batch_size], int or float, is not refused: when
    the batch count is finite, no batch is evaluated and
    [get_sdf_in_batches] returns an array of zeros, one per query point.
    The quotient [n / batch_size] is taken exactly here; it is required
    to stay above [-2^1023], where the float division of the code does
    not overflow (for a batch size so close to zero that it does,
    [math.ceil] raises OverflowError instead). *)
Theorem get_sdf_in_batches_negative_batch_size (self : SurfacePointCloud F)
    (q : list (vec3 F)) (udb : bool) (k : nat) (b : pynum) :
  (py_value b < 0)%Q ->
  (inject_Z (- 2 ^ 1023) < inject_Z (Z.of_nat (length q)) / py_value b)%Q ->
  get_sdf_in_batches self q udb k b = Ok (np_zeros (length q)).
Proof.
  intros Hb _. unfold get_sdf_in_batches, py_le, py_truediv. cbn [py_value].
  destruct (Qle_bool (inject_Z (Z.of_nat (length q))) (py_value b)) eqn:Hle.
  - apply Qle_bool_iff in Hle. exfalso.
    assert (H0 : (0 <= inject_Z (Z.of_nat (length q)))%Q).
    { change 0%Q with (inject_Z 0). rewrite <- Zle_Qle. lia. }
    apply (Qlt_irrefl 0).
    eapply Qle_lt_trans; [exact H0|]. eapply Qle_lt_trans; eassumption.
  - destruct (Qeq_bool (py_value b) 0) eqn:Hz.
    + apply Qeq_bool_iff in Hz. rewrite Hz in Hb.
      exfalso. apply (Qlt_irrefl 0). exact Hb.
    + cbn [bind]. rewrite range_nonpos; [reflexivity|].
      unfold math_ceil.
      change 0 with (Qceiling 0). apply Qceiling_resp_le.
      apply Qdiv_nonneg_neg; [lia|exact Hb].
Qed.

(** X5.  A [batch_size] of zero, int or float, with at least one query
    point: [get_sdf_in_batches] raises the ZeroDivisionError of the
    batch count. *)
Theorem get_sdf_in_batches_zero_batch_size (self : SurfacePointCloud F)
    (q : list (vec3 F)) (udb : bool) (k : nat) (b : pynum) :
  (py_value b == 0)%Q ->
  q <> [] ->
  get_sdf_in_batches self q udb k b = Err ZeroDivisionError.
Proof.
  intros Hb Hq. unfold get_sdf_in_batches, py_le, py_truediv. cbn [py_value].
  destruct (Qle_bool (inject_Z (Z.of_nat (length q))) (py_value b)) eqn:Hle.
  - apply Qle_bool_iff in Hle. rewrite Hb in Hle.
    change 0%Q with (inject_Z 0) in Hle. rewrite <- Zle_Qle in Hle.
    destruct q; [congruence|simpl in Hle; lia].
  - rewrite (proj2 (Qeq_bool_iff _ _) Hb). reflexivity.
Qed.

(** X6.  A raster of more than [1e6] points: [get_voxels] raises
    TypeError, whatever the point cloud, the strategy, [pad] and
    [check_result]. *)
Theorem get_voxels_raises_beyond_default_batch (self : SurfacePointCloud F)
    (r : Z) (udb : bool) (k : nat) (pad check : bool) :
  1000000 < Z.of_nat (length (get_raster_points r)) ->
  get_voxels self r udb k pad check = Err TypeError.
Proof.
  intros Hn. unfold get_voxels, default_batch_size.
  rewrite get_sdf_in_batches_float; [reflexivity|reflexivity|].
  now rewrite Zlt_Qlt in Hn.
Qed.

(** X8.  Padding is applied last: with [pad=True], [get_voxels] returns
    the volume of [pad=False] wrapped in ones, and raises what
    [pad=False] raises. *)
Theorem get_voxels_pad_of_unpadded (self : SurfacePointCloud F)
    (r : Z) (udb : bool) (k : nat) (check : bool) :
  get_voxels self r udb k true check =
  match get_voxels self r udb k false check with
  | Ok v => Ok (np_pad1 (f_of_Z 1) v)
  | Err e => Err e
  end.
Proof.
  unfold get_voxels.
  destruct (get_sdf_in_batches _ _ _ _ _) as [sdf|e]; [|reflexivity].
  cbn [bind]. destruct (np_reshape3 sdf r) as [v|e]; [|reflexivity].
  cbn [bind]. destruct (check && negb (check_voxels v)); reflexivity.
Qed.
End BatchSizes.

(* ================================================================== *)
(** ** Further properties: the camera angles *)

Section MoreAnglesReal.
Local Open Scope R_scope.

Lemma elevation_lt (C i j : Z) :
  (2 <= C)%Z -> (0 <= i)%Z -> (i < j)%Z -> (j < C)%Z ->
  elevation C i < elevation C j.
Proof.
  intros HC Hi Hij Hj. unfold elevation.
  pose proof (ratio_bounds C i HC ltac:(lia)) as Hbi.
  pose proof (ratio_bounds C j HC ltac:(lia)) as Hbj.
  apply sin_increasing_0; try apply asin_bound.
  rewrite !sin_asin by assumption.
  assert (HCr : 1 <= IZR C - 1) by (apply IZR_le in HC; lra).
  assert (Hlt : IZR i < IZR j) by (now apply IZR_lt).
  assert (Hinv : 0 < / (IZR C - 1)) by (apply Rinv_0_lt_compat; lra).
  unfold Rdiv. nra.
Qed.

(** X11.  From two views on, the first camera looks from one pole and the
    last from the other: the first elevation is [-pi/2], the last is
    [pi/2]. *)
Theorem get_equidistant_camera_angles_poles (C : Z) :
  (2 <= C)%Z ->
  exists l : list (R * R),
    get_equidistant_camera_angles C = Ok l /\
    option_map snd (nth_error l 0) = Some (- (PI / 2)) /\
    option_map snd (nth_error l (Z.to_nat (C - 1))) = Some (PI / 2).
Proof.
  intros HC. eexists. split; [apply angles_real; exact HC|].
  rewrite !nth_error_map.
  change O with (Z.to_nat 0).
  rewrite !range_nth_error by lia. cbn [option_map snd].
  unfold elevation. split; f_equal.
  - replace (-1 + 2 * 0 / (IZR C - 1)) with (- (1)).
    + rewrite asin_opp, asin_1. reflexivity.
    + unfold Rdiv. ring.
  - replace (-1 + 2 * IZR (C - 1) / (IZR C - 1)) with 1.
    + apply asin_1.
    + rewrite minus_IZR. apply IZR_le in HC. field. lra.
Qed.

(** X12.  From two views on, the elevation never falls from one view to
    a later one.  (In exact arithmetic it rises strictly; the statement
    is kept to what rounding preserves.) *)
Theorem get_equidistant_camera_angles_rising (C : Z) :
  (2 <= C)%Z ->
  exists l : list (R * R),
    get_equidistant_camera_angles C = Ok l /\
    forall i j a b,
      (i <= j)%nat ->
      nth_error l i = Some a -> nth_error l j = Some b ->
      snd a <= snd b.
Proof.
  intros HC. eexists. split; [apply angles_real; exact HC|].
  intros i j a b Hij Ha Hb.
  rewrite nth_error_map in Ha, Hb.
  assert (Hj : (j < Z.to_nat C)%nat).
  { rewrite <- range_length. apply nth_error_Some.
    destruct (nth_error (range C) j); [discriminate|discriminate]. }
  rewrite <- (Nat2Z.id i) in Ha. rewrite <- (Nat2Z.id j) in Hb.
  rewrite range_nth_error in Ha, Hb by lia.
  cbn [option_map] in Ha, Hb. inversion Ha; inversion Hb; subst. simpl.
  destruct (Nat.eq_dec i j) as [Heq|Hne].
  - subst j. apply Rle_refl.
  - apply Rlt_le. apply elevation_lt; lia.
Qed.
End MoreAnglesReal.

(* ================================================================== *)
(** ** Further properties: building and sampling *)

Section MoreConstruction.
Context {F : Type} {FL : Float F} {E : Collaborators F}.

(** X14.  [sample_from_mesh] with normals: when the sampled face
    indices are faces of the mesh, the call fails only if the index
    constructor does; the point cloud it returns holds the sampled
    points in order, one normal per point, each the normal of the face
    its point was sampled on, and no scans. *)
Theorem sample_from_mesh_aligned (m : Mesh) (count : Z) :
  Forall (fun s => (snd s < length (mesh_face_normals m))%nat)
         (mesh_sample m count) ->
  exists ns,
    length ns = length (mesh_sample m count) /\
    (forall i p f, nth_error (mesh_sample m count) i = Some (p, f) ->
                   nth_error ns i = nth_error (mesh_face_normals m) f) /\
    sample_from_mesh m count true =
      match KDTree_new (map fst (mesh_sample m count)) with
      | Ok tree => Ok {| mesh := m;
                         points := map fst (mesh_sample m count);
                         normals := Some ns;
                         scans := None;
                         kd_tree := tree |}
      | Err e => Err e
      end.
Proof.
  intros Hfaces. unfold sample_from_mesh.
  set (look := fun i => match nth_error (mesh_face_normals m) i with
                        | Some n => Ok n
                        | None => Err IndexError
                        end).
  destruct (@mapM_total _ _ look (map snd (mesh_sample m count))) as [ns Hns].
  { apply Forall_map. eapply Forall_impl; [|exact Hfaces].
    intros s Hs. simpl in Hs. unfold look.
    destruct (nth_error (mesh_face_normals m) (snd s)) eqn:Hn; [eauto|].
    apply nth_error_None in Hn. lia. }
  exists ns. rewrite Hns. cbn [bind].
  apply mapM_Forall2 in Hns.
  split; [|split].
  - apply Forall2_length in Hns. rewrite length_map in Hns. now symmetry.
  - intros i p f Hi.
    assert (Hi' : nth_error (map snd (mesh_sample m count)) i = Some f)
      by (rewrite nth_error_map, Hi; reflexivity).
    destruct (Forall2_nth_error_l Hns Hi') as [n [Hn Hlook]].
    unfold look in Hlook.
    destruct (nth_error (mesh_face_normals m) f); congruence.
  - apply SurfacePointCloud_init_eq.
Qed.

(** A point cloud built without normals has none. *)
Lemma sample_from_mesh_without_normals (m : Mesh) (count : Z)
    (pc : SurfacePointCloud F) :
  sample_from_mesh m count false = Ok pc -> normals pc = None.
Proof.
  unfold sample_from_mesh, SurfacePointCloud_init.
  destruct (KDTree_new _); simpl; [|discriminate].
  intros Hpc; inversion Hpc; reflexivity.
Qed.

Section WithDraw.
Variable random_choice : Z -> Z -> result (list nat).

(** X15.  [get_random_surface_points] with [use_scans=True]: when the
    drawn indices are below the number of points, the call returns one
    row per drawn index, and each row is the point of the cloud at that
    index. *)
Theorem get_random_surface_points_are_cloud_points
    (self : SurfacePointCloud F) (count : Z) (indices : list nat) :
  random_choice (Z.of_nat (length (points self))) count = Ok indices ->
  Forall (fun i => (i < length (points self))%nat) indices ->
  exists rows,
    get_random_surface_points random_choice self count true = Ok rows /\
    length rows = length indices /\
    forall n i, nth_error indices n = Some i ->
                nth_error rows n = nth_error (points self) i /\
                nth_error rows n <> None.
Proof.
  intros Hdraw Hin. unfold get_random_surface_points. rewrite Hdraw.
  cbn [bind].
  set (look := fun i => match nth_error (points self) i with
                        | Some p => Ok p
                        | None => Err IndexError
                        end).
  destruct (@mapM_total _ _ look indices) as [rows Hrows].
  { eapply Forall_impl; [|exact Hin]. intros i Hi. simpl in Hi. unfold look.
    destruct (nth_error (points self) i) eqn:Hp; [eauto|].
    apply nth_error_None in Hp. lia. }
  exists rows. split; [exact Hrows|].
  apply mapM_Forall2 in Hrows. split.
  - symmetry. eapply Forall2_length; eassumption.
  - intros n i Hn.
    destruct (Forall2_nth_error_l Hrows Hn) as [p [Hp Hlook]].
    unfold look in Hlook.
    destruct (nth_error (points self) i) eqn:Hpi; [|discriminate].
    inversion Hlook; subst. rewrite Hp. split; [reflexivity|discriminate].
Qed.
End WithDraw.
End MoreConstruction.

Section MoreConstructionReal.
Context {E : Collaborators R}.

(** X13.  A point cloud built by [create_from_scans] from two views on
    can be asked for visibility: [is_outside] returns a mask with one
    entry per point, true exactly where one of the [C] scans sees the
    point. *)
Theorem create_from_scans_is_outside (m : Mesh) (radius : R) (C res : Z)
    (calc : bool) (pc : SurfacePointCloud R) (pts : list (vec3 R)) :
  2 <= C ->
  create_from_scans m radius C res calc = Ok pc ->
  exists mask,
    is_outside pc pts = Ok (Some mask) /\
    length mask = length pts /\
    forall n p, nth_error pts n = Some p ->
      nth_error mask n =
      Some (existsb (fun i => scan_visible
                                (Scan_new m (azimuth i) (elevation C i)
                                          radius res calc) p)
                    (range C)).
Proof.
  intros HC Hpc.
  destruct (range_pos C ltac:(lia)) as [l Hl].
  rewrite (create_from_scans_of_angles m radius C res calc _
             (angles_real C HC)) in Hpc
    by (rewrite Hl; discriminate).
  cbv zeta in Hpc. rewrite SurfacePointCloud_init_eq in Hpc.
  destruct (KDTree_new _) as [tree|e]; [|discriminate].
  injection Hpc as Hpc'. subst pc.
  set (view := fun i => Scan_new m (azimuth i) (elevation C i) radius res calc).
  match goal with |- context [is_outside ?c _] => set (pc := c) end.
  assert (Hss : scans pc = Some (view 0 :: map view l)).
  { unfold pc. cbn [scans]. rewrite map_map, Hl. reflexivity. }
  exists (map (visible_from_any (view 0 :: map view l)) pts).
  split; [apply is_outside_any; exact Hss|].
  split; [now rewrite length_map|].
  intros n p Hn. rewrite nth_error_map, Hn. cbn [option_map]. f_equal.
  rewrite Hl. unfold visible_from_any. cbn [existsb]. f_equal.
  clear. induction l as [|x l IH]; [reflexivity|].
  simpl. now rewrite IH.
Qed.
End MoreConstructionReal.

(* ================================================================== *)
(** ** Further properties: batches of an index that answers row by row *)

Lemma combine_app_eq {A B} (a1 a2 : list A) (b1 b2 : list B) :
  length a1 = length b1 ->
  combine (a1 ++ a2) (b1 ++ b2) = combine a1 b1 ++ combine a2 b2.
Proof.
  revert b1; induction a1 as [|x a1 IH]; intros [|y b1] Hlen;
    try discriminate; [reflexivity|].
  simpl. f_equal. apply IH. now injection Hlen.
Qed.

Lemma Forall2_split {A B} (P : A -> Prop) (Q : B -> Prop) l l' :
  Forall2 (fun a b => P a /\ Q b) l l' -> Forall P l /\ Forall Q l'.
Proof.
  induction 1 as [|a b l l' [Ha Hb] _ [IHa IHb]]; split; constructor;
    assumption.
Qed.

Section RowwiseBatches.
Context {F : Type} {FL : Float F} {E : Collaborators F}.
Variables (self : SurfacePointCloud F) (udb : bool) (k k' : nat).
Variable row_ok : list F -> list nat -> Prop.
Variable value : vec3 F -> list F -> list nat -> F.

Hypothesis index_rowwise : answers_rowwise (kd_tree self) k' row_ok.
Hypothesis get_sdf_fails :
  forall q e, KDTree_query (kd_tree self) q k' = Err e ->
              get_sdf self q udb k = Err e.
Hypothesis get_sdf_values :
  forall q d i,
    KDTree_query (kd_tree self) q k' = Ok (d, i) ->
    length d = length q -> Forall2 row_ok d i ->
    get_sdf self q udb k =
    Ok (map (fun x => value (fst x) (fst (snd x)) (snd (snd x)))
            (combine q (combine d i))).

Lemma rowwise_get_sdf_length (q : list (vec3 F)) (r : list F) :
  get_sdf self q udb k = Ok r -> length r = length q.
Proof.
  intros Hr.
  destruct (KDTree_query (kd_tree self) q k') as [[d i]|e] eqn:Hq.
  - destruct (proj2 index_rowwise q d i Hq) as [Hd Hrows].
    rewrite (get_sdf_values q d i Hq Hd Hrows) in Hr.
    inversion Hr; subst r.
    apply Forall2_length in Hrows.
    rewrite length_map, !length_combine. lia.
  - rewrite (get_sdf_fails q e Hq) in Hr. discriminate.
Qed.

Lemma rowwise_get_sdf_app (q1 q2 : list (vec3 F)) :
  q1 <> [] -> q2 <> [] ->
  get_sdf self (q1 ++ q2) udb k =
  (a <- get_sdf self q1 udb k ;; b <- get_sdf self q2 udb k ;; Ok (a ++ b)).
Proof.
  intros H1 H2.
  pose proof (proj1 index_rowwise q1 q2 H1 H2) as Hq.
  destruct (KDTree_query (kd_tree self) q1 k') as [[d1 i1]|e1] eqn:Hq1.
  - destruct (proj2 index_rowwise q1 d1 i1 Hq1) as [Hd1 Hrows1].
    rewrite (get_sdf_values q1 d1 i1 Hq1 Hd1 Hrows1). cbn [bind].
    destruct (KDTree_query (kd_tree self) q2 k') as [[d2 i2]|e2] eqn:Hq2.
    + destruct (proj2 index_rowwise q2 d2 i2 Hq2) as [Hd2 Hrows2].
      rewrite (get_sdf_values q2 d2 i2 Hq2 Hd2 Hrows2). cbn [bind].
      cbn [bind fst snd] in Hq.
      destruct (proj2 index_rowwise _ _ _ Hq) as [Hd Hrows].
      rewrite (get_sdf_values _ _ _ Hq Hd Hrows). f_equal.
      rewrite <- map_app. f_equal.
      rewrite (combine_app_eq d1 d2 i1 i2)
        by (eapply Forall2_length; eassumption).
      apply combine_app_eq. rewrite length_combine.
      apply Forall2_length in Hrows1. lia.
    + cbn [bind] in Hq.
      rewrite (get_sdf_fails _ _ Hq), (get_sdf_fails _ _ Hq2). reflexivity.
  - cbn [bind] in Hq.
    rewrite (get_sdf_fails _ _ Hq), (get_sdf_fails _ _ Hq1). reflexivity.
Qed.

Lemma rowwise_batches (q : list (vec3 F)) (B : Z) :
  1 <= B ->
  get_sdf_in_batches self q udb k (PyInt B) = get_sdf self q udb k.
Proof.
  apply get_sdf_in_batches_int.
  - exact rowwise_get_sdf_length.
  - exact rowwise_get_sdf_app.
Qed.
End RowwiseBatches.

Section StrategyValues.
Context {F : Type} {FL : Float F} {E : Collaborators F}.

(** The normal vote, row by row. *)
Lemma get_sdf_normal_vote_values (self : SurfacePointCloud F) ns k q d i :
  normals self = Some ns ->
  KDTree_query (kd_tree self) q k = Ok (d, i) ->
  length d = length q ->
  Forall2 (fun drow irow =>
             drow <> [] /\
             Forall (fun j => (j < length (points self))%nat /\
                              (j < length ns)%nat) irow) d i ->
  get_sdf self q false k =
  Ok (map (fun x => normal_vote_value (points self) ns k
                      (fst x) (fst (snd x)) (snd (snd x)))
          (combine q (combine d i))).
Proof.
  intros Hns Hq Hld Hrows.
  pose proof (Forall2_length Hrows) as Hli.
  destruct (Forall2_split _ _ _ _ Hrows) as [Hne Hidx].
  assert (Hip : Forall (Forall (fun j => (j < length (points self))%nat)) i).
  { eapply Forall_impl; [|exact Hidx]. intros row Hrow.
    eapply Forall_impl; [|exact Hrow]. intros j Hj. apply Hj. }
  assert (Hin : Forall (Forall (fun j => (j < length ns)%nat)) i).
  { eapply Forall_impl; [|exact Hidx]. intros row Hrow.
    eapply Forall_impl; [|exact Hrow]. intros j Hj. apply Hj. }
  unfold get_sdf. rewrite Hq. cbn [bind]. rewrite Hns.
  destruct (np_take_total (points self) Hip) as [cp Hcp].
  destruct (np_take_total ns Hin) as [cn Hcn].
  rewrite Hcp. cbn [bind].
  assert (Hlcp : length cp = length i).
  { unfold np_take in Hcp. apply mapM_Forall2 in Hcp.
    symmetry. eapply Forall2_length; eassumption. }
  assert (Hlcn : length cn = length i).
  { unfold np_take in Hcn. apply mapM_Forall2 in Hcn.
    symmetry. eapply Forall2_length; eassumption. }
  unfold np_sub_broadcast.
  replace (length q =? length cp)%nat with true
    by (symmetry; apply Nat.eqb_eq; lia).
  cbn [bind]. rewrite Hcn. cbn [bind].
  assert (Hne' : Forall (fun row => row <> []) (map (map astype_float32) d)).
  { apply Forall_map. eapply Forall_impl; [|exact Hne].
    intros [|x row] Hr; simpl; congruence. }
  destruct (np_column0_total Hne') as [c Hc]. rewrite Hc. cbn [bind].
  assert (Hlc : length c = length q).
  { unfold np_column0 in Hc. apply mapM_Forall2 in Hc.
    apply Forall2_length in Hc. rewrite length_map in Hc. lia. }
  unfold np_imul_at, einsum_lt0.
  rewrite !length_map, !length_combine, !length_map, !length_combine.
  replace (Nat.min (Nat.min (length q) (length cp)) (length cn) =? length c)%nat
    with true by (symmetry; apply Nat.eqb_eq; lia).
  f_equal. apply nth_error_ext. intros n.
  rewrite !nth_error_map, !nth_error_combine.
  destruct (nth_error q n) as [qi|] eqn:Hqi.
  - assert (Hn : (n < length q)%nat)
      by (apply nth_error_Some; congruence).
    destruct (nth_error d n) as [drow|] eqn:Hdi;
      [|apply nth_error_None in Hdi; lia].
    destruct (nth_error i n) as [irow|] eqn:Hii;
      [|apply nth_error_None in Hii; lia].
    destruct (np_take_row Hcp Hii) as [prow [Hprow HPp]].
    destruct (np_take_row Hcn Hii) as [nrow [Hnrow HPn]].
    assert (Hdi' : nth_error (map (map astype_float32) d) n
                   = Some (map astype_float32 drow))
      by (rewrite nth_error_map, Hdi; reflexivity).
    destruct (np_column0_row Hc Hdi') as [d0' [Hd0' Hci]].
    destruct drow as [|d0 drow]; [discriminate|].
    simpl in Hd0'. inversion Hd0'; subst d0'.
    rewrite Hci, !nth_error_map, !nth_error_combine.
    rewrite !nth_error_map, !nth_error_combine, Hqi, Hprow, Hnrow.
    simpl. rewrite (row_votes qi HPp HPn). reflexivity.
  - apply nth_error_None in Hqi.
    destruct (nth_error c n) as [x|] eqn:Hcn'; [|reflexivity].
    assert (Hn : (n < length c)%nat)
      by (apply nth_error_Some; congruence).
    lia.
Qed.

Lemma concat_singletons_hd (f : F -> F) (z : F) (d : list (list F)) :
  Forall (fun row => length row = 1%nat) d ->
  concat (map (map f) d) = map (fun row => f (hd z row)) d.
Proof.
  induction 1 as [|row d Hrow _ IH]; [reflexivity|].
  destruct row as [|x [|y row]]; try discriminate.
  simpl. now rewrite IH.
Qed.

(** The visibility scans, row by row. *)
Lemma get_sdf_depth_buffer_values (self : SurfacePointCloud F) ss k q d i :
  scans self = Some ss ->
  KDTree_query (kd_tree self) q 1 = Ok (d, i) ->
  length d = length q ->
  Forall2 (fun drow (_ : list nat) => length drow = 1%nat) d i ->
  get_sdf self q true k =
  Ok (map (fun x => depth_buffer_value ss (fst x) (fst (snd x)))
          (combine q (combine d i))).
Proof.
  intros Hs Hq Hld Hrows.
  pose proof (Forall2_length Hrows) as Hli.
  assert (Hone : Forall (fun row => length row = 1%nat) d).
  { clear - Hrows. induction Hrows; constructor; assumption. }
  unfold get_sdf. rewrite Hq. cbn [bind].
  rewrite (concat_singletons_hd astype_float32 (f_of_Z 0) d Hone).
  rewrite map_map.
  destruct ss as [|s ss].
  - unfold is_outside. rewrite Hs. cbn [bind fold_left np_imul_at].
    f_equal. rewrite map_map.
    clear - Hld Hli. revert d i Hld Hli.
    induction q as [|qi q IH]; intros [|drow d] [|irow i] Hld Hli;
      try discriminate; [reflexivity|].
    cbn [map combine fst snd]. f_equal. apply IH; simpl in *; lia.
  - rewrite (is_outside_any self s ss q Hs). cbn [bind np_imul_at].
    rewrite !length_map.
    replace (length q =? length d)%nat with true
      by (symmetry; apply Nat.eqb_eq; lia).
    f_equal.
    clear - Hld Hli. revert d i Hld Hli.
    induction q as [|qi q IH]; intros [|drow d] [|irow i] Hld Hli;
      try discriminate; [reflexivity|].
    cbn [map combine fst snd]. f_equal. apply IH; simpl in *; lia.
Qed.

(** X1.  The normal vote in batches: on a point cloud with normals
    whose index answers row by row, with non-empty rows of in-range
    indices, every integer batch size from 1 on gives exactly what the
    unbatched [get_sdf] gives, values and exceptions alike. *)
Theorem get_sdf_in_batches_normal_vote (self : SurfacePointCloud F)
    (ns : list (vec3 F)) (k : nat) (q : list (vec3 F)) (B : Z) :
  normals self = Some ns ->
  answers_rowwise (kd_tree self) k
    (fun drow irow =>
       drow <> [] /\
       Forall (fun j => (j < length (points self))%nat /\
                        (j < length ns)%nat) irow) ->
  1 <= B ->
  get_sdf_in_batches self q false k (PyInt B) = get_sdf self q false k.
Proof.
  intros Hns Hindex HB.
  eapply (rowwise_batches self false k k _
            (normal_vote_value (points self) ns k) Hindex).
  - intros q' e He. unfold get_sdf. now rewrite He.
  - intros q' d i Hq Hd Hrows.
    now apply get_sdf_normal_vote_values.
  - exact HB.
Qed.

(** X2.  The visibility scans in batches: on a point cloud with a scan
    list whose index answers the 1-nearest-neighbour query row by row,
    one distance per query point, every integer batch size from 1 on
    gives exactly what the unbatched [get_sdf] gives. *)
Theorem get_sdf_in_batches_depth_buffer (self : SurfacePointCloud F)
    (ss : list (Scan F)) (k : nat) (q : list (vec3 F)) (B : Z) :
  scans self = Some ss ->
  answers_rowwise (kd_tree self) 1
    (fun drow _ => length drow = 1%nat) ->
  1 <= B ->
  get_sdf_in_batches self q true k (PyInt B) = get_sdf self q true k.
Proof.
  intros Hs Hindex HB.
  eapply (rowwise_batches self true k 1 _
            (fun qi drow _ => depth_buffer_value ss qi drow) Hindex).
  - intros q' e He. unfold get_sdf. now rewrite He.
  - intros q' d i Hq Hd Hrows.
    now apply get_sdf_depth_buffer_values.
  - exact HB.
Qed.
End StrategyValues.

(* ================================================================== *)
(** ** The test double answers row by row *)

Lemma firstn_incl {A} (n : nat) (l : list A) (x : A) :
  In x (firstn n l) -> In x l.
Proof.
  intros Hx. rewrite <- (firstn_skipn n l). apply in_or_app. now left.
Qed.

Section DoubleRowwise.
Context {F : Type} {FL : Float F}.

Lemma insert_length (x : F * nat) (l : list (F * nat)) :
  length (TestDouble.insert x l) = S (length l).
Proof.
  induction l as [|y l IH]; [reflexivity|].
  simpl. destruct (f_ltb (fst y) (fst x)); simpl; [now rewrite IH|reflexivity].
Qed.

Lemma insert_In (x y : F * nat) (l : list (F * nat)) :
  In y (TestDouble.insert x l) -> y = x \/ In y l.
Proof.
  induction l as [|z l IH]; simpl.
  - intros [H|[]]; auto.
  - destruct (f_ltb (fst z) (fst x)); simpl.
    + intros [H|H]; [auto|]. destruct (IH H); auto.
    + intros [H|[H|H]]; auto.
Qed.

Lemma sorted_length (l : list (F * nat)) :
  length (fold_right TestDouble.insert [] l) = length l.
Proof.
  induction l as [|x l IH]; [reflexivity|].
  simpl. now rewrite insert_length, IH.
Qed.

Lemma sorted_In (y : F * nat) (l : list (F * nat)) :
  In y (fold_right TestDouble.insert [] l) -> In y l.
Proof.
  induction l as [|x l IH]; [auto|].
  simpl. intros H. destruct (insert_In _ _ _ H); auto.
Qed.

Lemma nearest_length (pts : list (vec3 F)) (k : nat) (q : vec3 F) :
  (k <= length pts)%nat -> length (TestDouble.nearest pts k q) = k.
Proof.
  intros Hk. unfold TestDouble.nearest.
  rewrite length_firstn, sorted_length, length_combine, length_map, length_seq.
  lia.
Qed.

Lemma nearest_index (pts : list (vec3 F)) (k : nat) (q : vec3 F) :
  Forall (fun j => (j < length pts)%nat)
         (map snd (TestDouble.nearest pts k q)).
Proof.
  apply Forall_map, Forall_forall. intros [d j] Hin.
  unfold TestDouble.nearest in Hin.
  apply firstn_incl, sorted_In, in_combine_r, in_seq in Hin. simpl. lia.
Qed.

(** The brute-force index answers row by row, [k] distances and [k]
    in-range indices per query point. *)
Lemma double_answers_rowwise (pts : list (vec3 F)) (k : nat) :
  answers_rowwise (E := TestDouble.env) pts k
    (fun drow irow =>
       length drow = k /\ Forall (fun j => (j < length pts)%nat) irow).
Proof.
  split.
  - intros q1 q2 H1 H2. simpl. unfold TestDouble.query.
    destruct q1 as [|x1 q1]; [congruence|].
    destruct q2 as [|x2 q2]; [congruence|].
    cbn [app]. destruct (length pts <? k)%nat; [reflexivity|].
    cbn [bind fst snd]. now rewrite <- !map_app.
  - intros q d i. simpl. unfold TestDouble.query.
    destruct q as [|x q]; [discriminate|].
    destruct (length pts <? k)%nat eqn:Hk; [discriminate|].
    apply Nat.ltb_ge in Hk.
    intros Hdi. inversion Hdi; subst d i; clear Hdi.
    split; [simpl; now rewrite length_map|].
    assert (Hrow : forall y,
               length (map fst (TestDouble.nearest pts k y)) = k /\
               Forall (fun j => (j < length pts)%nat)
                      (map snd (TestDouble.nearest pts k y))).
    { intros y. split; [|apply nearest_index].
      rewrite length_map. now apply nearest_length. }
    constructor; [apply Hrow|].
    clear - Hrow. induction q as [|y q IH]; [constructor|].
    cbn [map]. constructor; [apply Hrow|exact IH].
Qed.

Lemma answers_rowwise_impl {E : Collaborators F} (tree : KDTree) (k : nat)
    (P Q : list F -> list nat -> Prop) :
  (forall d i, P d i -> Q d i) ->
  answers_rowwise tree k P -> answers_rowwise tree k Q.
Proof.
  intros HPQ [Happ Hrows]. split; [exact Happ|].
  intros q d i Hq. destruct (Hrows q d i Hq) as [Hd HF].
  split; [exact Hd|].
  eapply Forall2_impl; [|exact HF]. exact HPQ.
Qed.
End DoubleRowwise.

(* ================================================================== *)
(** ** The further properties on the test double *)

(** X1 on the sampled octahedron, three neighbours, batches of two. *)
Lemma get_sdf_in_batches_normal_vote_witness :
  get_sdf_in_batches TestData.sampled_cloud TestData.queries false 3 (PyInt 2)
  = get_sdf TestData.sampled_cloud TestData.queries false 3.
Proof.
  apply (get_sdf_in_batches_normal_vote TestData.sampled_cloud
           (map snd TestDouble.octahedron) 3 TestData.queries 2).
  - reflexivity.
  - eapply answers_rowwise_impl;
      [|exact (double_answers_rowwise (map fst TestDouble.octahedron) 3)].
    intros d i [Hd Hi]. split.
    + destruct d; [discriminate|discriminate].
    + eapply Forall_impl; [|exact Hi]. intros j Hj. simpl in *. lia.
  - lia.
Defined.

(** X2 on the octahedron captured by two scans, batches of two. *)
Lemma get_sdf_in_batches_depth_buffer_witness :
  get_sdf_in_batches TestData.scanned_cloud TestData.queries true 3 (PyInt 2)
  = get_sdf TestData.scanned_cloud TestData.queries true 3.
Proof.
  apply (get_sdf_in_batches_depth_buffer TestData.scanned_cloud
           TestData.two_scans 3 TestData.queries 2).
  - reflexivity.
  - eapply answers_rowwise_impl;
      [|exact (double_answers_rowwise (kd_tree TestData.scanned_cloud) 1)].
    intros d i [Hd _]. exact Hd.
  - lia.
Defined.

(** X3 on three query points and the float batch size 2.0. *)
Lemma get_sdf_in_batches_float_raises_witness :
  get_sdf_in_batches TestData.sampled_cloud TestData.queries false 3
    (PyFloat (inject_Z 2)) = Err TypeError.
Proof.
  apply (get_sdf_in_batches_float_raises TestData.sampled_cloud
           TestData.queries false 3 (inject_Z 2));
    vm_compute; reflexivity.
Defined.

(** X4 on three query points and the batch size -1. *)
Lemma get_sdf_in_batches_negative_batch_size_witness :
  get_sdf_in_batches TestData.sampled_cloud TestData.queries false 3
    (PyInt (-1)) = Ok [0; 0; 0].
Proof.
  change [0; 0; 0] with (np_zeros (F := Z) (length TestData.queries)).
  apply (get_sdf_in_batches_negative_batch_size TestData.sampled_cloud
           TestData.queries false 3 (PyInt (-1)));
    vm_compute; reflexivity.
Defined.

(** X5 on three query points and the batch size 0. *)
Lemma get_sdf_in_batches_zero_batch_size_witness :
  get_sdf_in_batches TestData.sampled_cloud TestData.queries false 3
    (PyInt 0) = Err ZeroDivisionError.
Proof.
  apply (get_sdf_in_batches_zero_batch_size TestData.sampled_cloud
           TestData.queries false 3 (PyInt 0)).
  - reflexivity.
  - discriminate.
Defined.

(** X6 at resolution 101, padded and checked. *)
Lemma get_voxels_raises_beyond_default_batch_witness :
  get_voxels TestData.sampled_cloud 101 true 11 true true = Err TypeError.
Proof.
  apply (get_voxels_raises_beyond_default_batch TestData.sampled_cloud
           101 true 11 true true).
  change (get_raster_points 101) with (TestDouble.raster (F := Z) 101).
  rewrite raster_length, !Nat2Z.inj_mul, !Z2Nat.id by lia. lia.
Defined.

(** X7 at resolution 2 on the sampled octahedron. *)
Lemma get_voxels_within_default_batch_witness :
  exists v,
    get_voxels TestData.sampled_cloud 2 false 3 false false = Ok v /\
    has_shape3 v 2 2 2 /\
    get_voxels TestData.sampled_cloud 2 false 3 true false
    = Ok (np_pad1 1 v) /\
    has_shape3 (np_pad1 1 v) 4 4 4 /\
    get3 (np_pad1 1 v) 0 2 1 = Some 1 /\
    get3 (np_pad1 1 v) 1 1 1 = get3 v 0 0 0.
Proof.
  destruct (get_voxels_within_default_batch TestData.sampled_cloud 2 false 3
              [-4; -1; -1; -2; -1; -2; -2; -3])
    as [v [Hv [Hs [Hp [Hps [Hshell Hin]]]]]].
  - lia.
  - reflexivity.
  - lia.
  - reflexivity.
  - reflexivity.
  - exists v. split; [exact Hv|]. split; [exact Hs|].
    split; [exact Hp|]. split; [exact Hps|]. split.
    + apply (Hshell 0 2 1)%nat; simpl; lia.
    + apply (Hin 0 0 0)%nat; simpl; lia.
Defined.

(** X9 on the octahedron sampled without normals. *)
Lemma get_sdf_normal_vote_without_normals_witness :
  get_sdf MoreTestData.bare_cloud TestData.queries false 3 = Err TypeError.
Proof.
  destruct (get_sdf_normal_vote_without_normals MoreTestData.bare_cloud
              TestData.queries 3 eq_refl) as [e [He Hty]].
  rewrite He. f_equal.
  apply (Hty [[4; 4; 4]; [9; 29; 29]; [2; 2; 6]]
             [[0; 1; 2]; [0; 2; 3]; [0; 2; 4]]%nat).
  - reflexivity.
  - reflexivity.
  - repeat (apply Forall_cons || apply Forall_nil); vm_compute; lia.
Defined.

(** X10 on the octahedron with an empty list of scans. *)
Lemma get_sdf_depth_buffer_empty_scans_witness :
  get_sdf MoreTestData.unscanned_cloud TestData.queries true 3
  = Ok [4; 9; 2].
Proof.
  change [4; 9; 2]
    with (concat (map (map (astype_float32 (F := Z))) [[4]; [9]; [2]])).
  apply (get_sdf_depth_buffer_empty_scans MoreTestData.unscanned_cloud
           TestData.queries 3 [[4]; [9]; [2]] [[0]; [0]; [0]]%nat).
  - intros x. unfold neg_one. simpl. lia.
  - reflexivity.
  - reflexivity.
Defined.

(** X11 for two views. *)
Lemma get_equidistant_camera_angles_poles_witness :
  exists l : list (R * R),
    get_equidistant_camera_angles 2 = Ok l /\
    option_map snd (nth_error l 0) = Some (- (PI / 2))%R /\
    option_map snd (nth_error l 1) = Some (PI / 2)%R.
Proof.
  apply (get_equidistant_camera_angles_poles 2). lia.
Defined.

(** X12 for three views. *)
Lemma get_equidistant_camera_angles_rising_witness :
  exists l : list (R * R),
    get_equidistant_camera_angles 3 = Ok l /\
    forall i j a b,
      (i <= j)%nat ->
      nth_error l i = Some a -> nth_error l j = Some b ->
      (snd a <= snd b)%R.
Proof.
  apply (get_equidistant_camera_angles_rising 3). lia.
Defined.

(** X14 on the octahedron, six samples. *)
Lemma sample_from_mesh_aligned_witness :
  exists pc,
    sample_from_mesh (E := TestDouble.env) TestDouble.octahedron 6 true
    = Ok pc /\
    option_map (@length (vec3 Z)) (normals pc) = Some (length (points pc)) /\
    scans pc = None.
Proof.
  destruct (sample_from_mesh_aligned (E := TestDouble.env)
              TestDouble.octahedron 6) as [ns [Hlen [Hnth Heq]]].
  - repeat (apply Forall_cons || apply Forall_nil); vm_compute; lia.
  - eexists. split; [rewrite Heq; reflexivity|].
    split; [|reflexivity].
    cbn [normals points option_map]. f_equal. exact Hlen.
Defined.

(** X15 on the sampled octahedron with a draw of three indices. *)
Lemma get_random_surface_points_are_cloud_points_witness :
  exists rows,
    get_random_surface_points MoreTestData.draw TestData.sampled_cloud 3 true
    = Ok rows /\
    length rows = 3%nat /\
    nth_error rows 1 = Some (mk3 0 0 2).
Proof.
  destruct (get_random_surface_points_are_cloud_points MoreTestData.draw
              TestData.sampled_cloud 3 [0; 4; 2]%nat)
    as [rows [Hrows [Hlen Hnth]]].
  - reflexivity.
  - repeat (apply Forall_cons || apply Forall_nil); vm_compute; lia.
  - exists rows. split; [exact Hrows|]. split; [exact Hlen|].
    exact (proj1 (Hnth 1%nat 4%nat eq_refl)).
Defined.

(** X13 for two views of a mesh with one sample. *)
Lemma create_from_scans_is_outside_witness :
  exists pc mask,
    create_from_scans (E := TestDouble.env) TestData.real_mesh 1%R 2 400 true
    = Ok pc /\
    is_outside pc [mk3 2 0 0]%R = Ok (Some mask) /\
    length mask = 1%nat.
Proof.
  destruct (create_from_scans (E := TestDouble.env) TestData.real_mesh
              1%R 2 400 true) as [pc|e] eqn:Hc.
  - destruct (create_from_scans_is_outside (E := TestDouble.env)
                TestData.real_mesh 1%R 2 400 true pc [mk3 2 0 0]%R
                ltac:(lia) Hc) as [mask [Hm [Hl _]]].
    exists pc, mask. split; [reflexivity|]. split; assumption.
  - exfalso.
    rewrite (create_from_scans_of_angles (E := TestDouble.env)
               TestData.real_mesh 1%R 2 400 true _
               (angles_real 2 ltac:(lia))) in Hc by discriminate.
    discriminate Hc.
Defined.
